(** * PDF field extraction service: cache, text extractor, LLM client,
      orchestrator and batch runner

    A shallow embedding of [app/cache_service.py], [app/pdf_extractor.py],
    [app/llm_service.py], [app/extraction_service.py] and the batch endpoint
    of [app/main.py].

    Conventions of the embedding:
    - a Python [str] is a [string] holding its UTF-8 bytes (byte-wise
      lexicographic order on UTF-8 coincides with Python's code point order);
      [bytes] is [list byte];
    - a Python [dict] whose insertion order is observable (the schema, the
      extracted data, a parsed JSON object) is an association list in
      insertion order with unique keys; the cache table, whose order is
      never observed, is a [gmap];
    - a Python [float] is a binary64 [float]; a Python [int] is a [Z];
    - code that can raise returns an [outcome]; code that also touches the
      module-level singletons or the outside world runs in the monad [M];
    - the libraries the code calls (hashlib, json, pdfplumber, the OpenAI
      client, os, time, pydantic's coercion to [str]) are the fields of a
      [Platform] record;
    - output written with [print] is not modelled. *)

From Stdlib Require Import Floats ZArith Strings.Byte Strings.Ascii.
From stdpp Require Import gmap strings list sorting finite.

Local Open Scope string_scope.

(* A decimal literal denotes the nearest binary64, as it does in Python. *)
Set Warnings "-inexact-float".

(** ** Exceptions and outcomes *)

Inductive exn : Type :=
| ValueError
| FileNotFoundError
| OSError
| AttributeError
| IndexError
| TypeError
| OverflowError
| JSONDecodeError
| APIError
| PDFSyntaxError
| ValidationError
| ImportError.

Inductive outcome (A : Type) : Type :=
| Ok (a : A)
| Raise (e : exn).
Arguments Ok {A} a.
Arguments Raise {A} e.

Definition obind {A B} (o : outcome A) (k : A → outcome B) : outcome B :=
  match o with
  | Ok a => k a
  | Raise e => Raise e
  end.

Notation "'try!' x ':=' o 'in' k" := (obind o (λ x, k))
  (at level 10, x name, o at level 100, k at level 200, only parsing).

(** ** Python values *)

(** What [json.loads] can return, and what ends up as a value of the
    extracted data. [PyNone] is the absence marker. *)
#[warnings="-register-all"]
Inductive pyval : Type :=
| PyNone
| PyBool (b : bool)
| PyInt (n : Z)
| PyFloat (f : float)
| PyStr (s : string)
| PyList (l : list pyval)
| PyDict (d : list (string * pyval)).

(** ** Insertion-ordered dictionaries with [str] keys *)

Definition dict (V : Type) : Type := list (string * V).

Definition dict_keys {V} (d : dict V) : list string := d.*1.

(** [d.get(k)] *)
Fixpoint dict_get {V} (d : dict V) (k : string) : option V :=
  match d with
  | [] => None
  | (k', v) :: d' => if decide (k' = k) then Some v else dict_get d' k
  end.

(** [d[k] = v]: an existing key keeps its position, a new key goes last. *)
Fixpoint dict_set {V} (d : dict V) (k : string) (v : V) : dict V :=
  match d with
  | [] => [(k, v)]
  | (k', v') :: d' =>
      if decide (k' = k) then (k, v) :: d' else (k', v') :: dict_set d' k v
  end.

(** Representation invariant of a dictionary: keys are unique. *)
Definition dict_wf {V} (d : dict V) : Prop := NoDup (dict_keys d).

(** [{field: None for field in fields}] *)
Definition none_for_fields (fields : list string) : dict pyval :=
  foldl (λ d field, dict_set d field PyNone) [] fields.

(** [result_json.get(field)]: only a [dict] has [get]; a key that is missing
    and a key bound to JSON [null] both give [None]. *)
Definition py_get (result_json : pyval) (field : string) : outcome pyval :=
  match result_json with
  | PyDict d => Ok (default PyNone (dict_get d field))
  | _ => Raise AttributeError
  end.

(** Truth value of an [Optional[str]]: [None] and the empty string are
    false. *)
Definition str_truthy (s : option string) : bool :=
  match s with
  | Some (String _ _) => true
  | _ => false
  end.

(** ** Python float arithmetic *)

(** [float(n)] for an [int]: rounded to nearest even, [OverflowError] when
    the integer is too large for a binary64. *)
Definition float_of_int (n : Z) : outcome float :=
  let f := SF2Prim (binary_normalize prec emax n 0 false) in
  if PrimFloat.is_infinity f then Raise OverflowError else Ok f.

(** ** The results the service produces *)

(** The dictionary [extract] returns and caches:
    [{"extracted_data": ..., "cost": ..., "processing_time": ...,
      "cache_hit": ...}]. *)
Record Result : Type := mkResult {
  extracted_data : dict pyval;
  cost : float;
  processing_time : float;
  cache_hit : bool
}.

(** [app/models.py] *)
Record ExtractionResponse : Type := mkExtractionResponse {
  response_extracted_data : dict (option string);
  response_cost : float;
  response_processing_time : float;
  response_cache_hit : bool
}.

Record BatchItem : Type := mkBatchItem {
  label : string;
  extraction_schema : dict string;
  pdf_path : string
}.

Record BatchExtractionResponse : Type := mkBatchExtractionResponse {
  results : list ExtractionResponse;
  total_cost : float;
  total_processing_time : float
}.

(** ** What the libraries hand back *)

(** A page of an opened PDF, given by what [page.extract_text()] does. *)
Record Page : Type := mkPage { extract_text : outcome (option string) }.

Record Usage : Type := mkUsage {
  prompt_tokens : Z;
  completion_tokens : Z
}.

(** A chat completion: [response.usage] and, for each of
    [response.choices], its [message.content]. *)
Record ChatCompletion : Type := mkChatCompletion {
  usage : option Usage;
  choices : list (option string)
}.

Record LLMService : Type := mkLLMService {
  client_api_key : string;
  model : string
}.

(** The external collaborators. The remote endpoint and the clock are not
    functions of their arguments alone: they are indexed by the number of
    calls made before. *)
Record Platform : Type := mkPlatform {
  (** [hashlib.sha256(b).hexdigest()] *)
  sha256_hexdigest : list byte → string;
  (** the JSON string literal [json.dumps] writes for a [str] *)
  json_encode_str : string → string;
  (** [json.loads]; [None] when it raises *)
  json_loads : string → option pyval;
  (** [pdfplumber.open(io.BytesIO(b))] and its [pages] *)
  pdfplumber_open : list byte → outcome (list Page);
  (** [os.getenv] *)
  os_getenv : string → option string;
  (** the constructor call [OpenAI(api_key=...)]: whether it returns or
      raises, for example when the installed client library and its
      dependencies do not fit together *)
  openai_new : string → outcome unit;
  (** [client.chat.completions.create(model, messages, response_format)] *)
  chat_completions_create : nat → string → string → string → outcome ChatCompletion;
  (** [time.time()] *)
  time_time : nat → float;
  (** [os.path.exists] *)
  os_path_exists : string → bool;
  (** [open(path, "rb").read()] *)
  read_binary : string → outcome (list byte);
  (** pydantic's conversion to [str] of a value that is neither [None] nor a
      [str]; [None] when pydantic rejects the value *)
  pydantic_coerce_str : pyval → option string
}.

(** ** Module-level state and the outside world *)

Record World : Type := mkWorld {
  (** [cache_service._cache] *)
  _cache : gmap string Result;
  (** the global [_llm_service] of [app/llm_service.py] *)
  _llm_service : option LLMService;
  (** calls of [client.chat.completions.create] made so far; the HTTP
      requests the client library makes inside one such call, its own
      retries included, are not counted apart *)
  llm_calls : nat;
  (** clock readings taken so far *)
  clock_reads : nat
}.

Definition M (A : Type) : Type := World → World * outcome A.

Definition ret {A} (a : A) : M A := λ w, (w, Ok a).

Definition raise {A} (e : exn) : M A := λ w, (w, Raise e).

Definition bind {A B} (m : M A) (k : A → M B) : M B := λ w,
  match m w with
  | (w', Ok a) => k a w'
  | (w', Raise e) => (w', Raise e)
  end.

(** [try: m  except Exception as e: h e]. State changes made before the
    exception are kept. *)
Definition try_except {A} (m : M A) (h : exn → M A) : M A := λ w,
  match m w with
  | (w', Ok a) => (w', Ok a)
  | (w', Raise e) => h e w'
  end.

Definition lift {A} (o : outcome A) : M A := λ w, (w, o).

Notation "'let!' x ':=' m 'in' k" := (bind m (λ x, k))
  (at level 10, x name, m at level 100, k at level 200, only parsing).
Notation "'let!' ' p ':=' m 'in' k" := (bind m (λ x, match x with p => k end))
  (at level 10, p pattern, m at level 100, k at level 200, only parsing).
Notation "'run!' m 'in' k" := (bind m (λ _, k))
  (at level 10, m at level 100, k at level 200, only parsing).

Definition with_cache (c : gmap string Result) (w : World) : World :=
  mkWorld c (_llm_service w) (llm_calls w) (clock_reads w).

Definition with_llm_service (s : option LLMService) (w : World) : World :=
  mkWorld (_cache w) s (llm_calls w) (clock_reads w).

Definition with_llm_calls (n : nat) (w : World) : World :=
  mkWorld (_cache w) (_llm_service w) n (clock_reads w).

Definition with_clock_reads (n : nat) (w : World) : World :=
  mkWorld (_cache w) (_llm_service w) (llm_calls w) n.

(** ** [sorted(d.items())] *)

(** Python compares the [(key, value)] tuples: by key, then by value. *)
Definition item_leb (a b : string * string) : bool :=
  match String.compare a.1 b.1 with
  | Lt => true
  | Eq => String.leb a.2 b.2
  | Gt => false
  end.

Definition item_le (a b : string * string) : Prop := item_leb a b.

Definition sorted_items (d : dict string) : list (string * string) :=
  merge_sort item_le d.

(** ** Text fragments *)

Definition nl : string := String "010"%char "".
Definition dquote : string := String "034"%char "".

Section Service.

Context (P : Platform).

(** ** [app/cache_service.py] *)

(** [json.dumps(extraction_schema, sort_keys=True)] for a [Dict[str, str]] *)
Definition json_dumps_sort_keys (extraction_schema : dict string) : string :=
  "{" ++
  String.concat ", "
    ((λ kv, json_encode_str P kv.1 ++ ": " ++ json_encode_str P kv.2)
       <$> sorted_items extraction_schema) ++
  "}".

Definition _generate_key (pdf_content : list byte)
    (extraction_schema : dict string) : string :=
  let pdf_hash := sha256_hexdigest P pdf_content in
  let schema_str := json_dumps_sort_keys extraction_schema in
  let schema_hash := sha256_hexdigest P (String.list_byte_of_string schema_str) in
  pdf_hash ++ ":" ++ schema_hash.

(** The methods of [CacheService], on the table [self._cache]. They never
    look inside the values they store. *)
Section CacheService.

Context {V : Type}.

Definition CacheService_get (self_cache : gmap string V)
    (pdf_content : list byte) (extraction_schema : dict string) : option V :=
  let key := _generate_key pdf_content extraction_schema in
  self_cache !! key.

Definition CacheService_set (self_cache : gmap string V)
    (pdf_content : list byte) (extraction_schema : dict string)
    (result : V) : gmap string V :=
  let key := _generate_key pdf_content extraction_schema in
  <[key := result]> self_cache.

Definition CacheService_clear (self_cache : gmap string V) : gmap string V := ∅.

Definition CacheService_size (self_cache : gmap string V) : nat :=
  size self_cache.

End CacheService.

(** The global [cache_service]. *)
Definition cache_service_get (pdf_content : list byte)
    (extraction_schema : dict string) : M (option Result) := λ w,
  (w, Ok (CacheService_get (_cache w) pdf_content extraction_schema)).

Definition cache_service_set (pdf_content : list byte)
    (extraction_schema : dict string) (result : Result) : M unit := λ w,
  (with_cache (CacheService_set (_cache w) pdf_content extraction_schema result) w,
   Ok tt).

(** ** [app/pdf_extractor.py] *)

Definition extract_text_from_pdf (pdf_content : list byte) : option string :=
  let attempt : outcome (option string) :=
    try! pages := pdfplumber_open P pdf_content in
    match pages with
    | [] => Ok None
    | page :: _ =>
        try! text := extract_text page in
        Ok (if str_truthy text then text else None)
    end in
  match attempt with
  | Ok text => text
  | Raise _ => None
  end.

(** ** [app/llm_service.py] *)

(** [LLMService.__init__]: the key is read and checked, then the client is
    built, which can raise as well. *)
Definition LLMService_init : outcome LLMService :=
  let api_key := os_getenv P "OPENAI_API_KEY" in
  if negb (str_truthy api_key) then Raise ValueError
  else
    try! client := openai_new P (default "" api_key) in
    Ok {| client_api_key := default "" api_key; model := "gpt-5-mini" |}.

(** The lazily built global instance. *)
Definition get_llm_service : M LLMService := λ w,
  match _llm_service w with
  | Some service => (w, Ok service)
  | None =>
      match LLMService_init with
      | Ok service => (with_llm_service (Some service) w, Ok service)
      | Raise e => (w, Raise e)
      end
  end.

Definition system_content : string :=
  "You are a data extraction assistant. Extract information from the given text and return ONLY valid JSON. If a field cannot be found, return null for that field.".

Definition _build_prompt (text : string) (extraction_schema : dict string)
    (label : option string) : string :=
  let schema_parts :=
    (λ kv, dquote ++ kv.1 ++ dquote ++ ": " ++ kv.2) <$> extraction_schema in
  let schema_text := String.concat nl schema_parts in
  let label_context :=
    if str_truthy label
    then nl ++ "Document type (label): " ++ default "" label ++ nl
    else "" in
  "Extract the following fields from this text. Return JSON only." ++
  label_context ++ nl ++ nl ++
  "Fields to extract:" ++ nl ++ schema_text ++ nl ++ nl ++
  "Text:" ++ nl ++ text.

(** The remote call. *)
Definition create_completion (self : LLMService) (prompt : string)
    : M ChatCompletion := λ w,
  (with_llm_calls (S (llm_calls w)) w,
   chat_completions_create P (llm_calls w) (model self) system_content prompt).

(** [(input_tokens * 0.075 / 1_000_000) + (output_tokens * 0.30 / 1_000_000)] *)
Definition usage_cost (input_tokens output_tokens : Z) : outcome float :=
  try! i := float_of_int input_tokens in
  try! o := float_of_int output_tokens in
  Ok (i * 0.075 / 1000000 + o * 0.30 / 1000000)%float.

(** [for field in fields: extracted_data[field] = result_json.get(field)] *)
Fixpoint fill_fields (result_json : pyval) (fields : list string)
    (extracted_data : dict pyval) : outcome (dict pyval) :=
  match fields with
  | [] => Ok extracted_data
  | field :: fields' =>
      try! value := py_get result_json field in
      fill_fields result_json fields' (dict_set extracted_data field value)
  end.

(** What the [try] block does with the response once it has arrived. *)
Definition read_response (extraction_schema : dict string)
    (response : ChatCompletion) : outcome (dict pyval * float) :=
  try! u := from_option Ok (Raise AttributeError) (usage response) in
  let input_tokens := prompt_tokens u in
  let output_tokens := completion_tokens u in
  try! cost := usage_cost input_tokens output_tokens in
  try! message_content := from_option Ok (Raise IndexError) (head (choices response)) in
  try! content := from_option Ok (Raise TypeError) message_content in
  try! result_json := from_option Ok (Raise JSONDecodeError) (json_loads P content) in
  try! extracted_data := fill_fields result_json (dict_keys extraction_schema) [] in
  Ok (extracted_data, cost).

(** The body of the [try] block of [extract_data]. *)
Definition extract_data_try (self : LLMService) (prompt : string)
    (extraction_schema : dict string) : M (dict pyval * float) :=
  let! response := create_completion self prompt in
  lift (read_response extraction_schema response).

Definition LLMService_extract_data (self : LLMService) (text : string)
    (extraction_schema : dict string) (label : option string)
    : M (dict pyval * float) :=
  let prompt := _build_prompt text extraction_schema label in
  try_except
    (extract_data_try self prompt extraction_schema)
    (λ e, ret (none_for_fields (dict_keys extraction_schema), 0%float)).

(** ** [app/extraction_service.py] *)

Definition time_now : M float := λ w,
  (with_clock_reads (S (clock_reads w)) w, Ok (time_time P (clock_reads w))).

Definition ExtractionService_extract (pdf_content : list byte)
    (extraction_schema : dict string) (label : option string) : M Result :=
  let! start_time := time_now in
  (* Check cache first. A cached result is a dictionary with the four
     entries [extract] stores: it is true whenever it is there, and its
     "cost" entry is never missing. *)
  let! cached_result := cache_service_get pdf_content extraction_schema in
  match cached_result with
  | Some cached =>
      let! now := time_now in
      ret {| extracted_data := extracted_data cached;
             cost := cost cached;
             processing_time := (now - start_time)%float;
             cache_hit := true |}
  | None =>
      (* Extract text from PDF *)
      let text := extract_text_from_pdf pdf_content in
      if negb (str_truthy text) then
        let! now := time_now in
        ret {| extracted_data := none_for_fields (dict_keys extraction_schema);
               cost := 0%float;
               processing_time := (now - start_time)%float;
               cache_hit := false |}
      else
        (* Extract data using LLM *)
        let! llm_service := get_llm_service in
        let! data_cost :=
          LLMService_extract_data llm_service (default "" text)
            extraction_schema label in
        (* Cache the result *)
        let! now := time_now in
        let result := {| extracted_data := data_cost.1;
                         cost := data_cost.2;
                         processing_time := (now - start_time)%float;
                         cache_hit := false |} in
        run! cache_service_set pdf_content extraction_schema result in
        ret result
  end.

(** ** [app/main.py]: the batch endpoint *)

(** [os.path.join(a, b)] on POSIX paths, for a first component that is not
    empty and does not end in a slash (the code passes ["files"]): an
    absolute [b] replaces [a]. *)
Definition os_path_join (a b : string) : string :=
  match b with
  | String "/" _ => b
  | _ => a ++ "/" ++ b
  end.

(** The value of one entry of [extracted_data : Dict[str, Optional[str]]] as
    pydantic validates it. *)
Definition validate_optional_str (value : pyval) : outcome (option string) :=
  match value with
  | PyNone => Ok None
  | PyStr s => Ok (Some s)
  | other =>
      match pydantic_coerce_str P other with
      | Some s => Ok (Some s)
      | None => Raise ValidationError
      end
  end.

Fixpoint validate_extracted_data (data : dict pyval)
    : outcome (dict (option string)) :=
  match data with
  | [] => Ok []
  | (field, value) :: data' =>
      try! value' := validate_optional_str value in
      try! rest := validate_extracted_data data' in
      Ok ((field, value') :: rest)
  end.

(** The constructor call [ExtractionResponse(extracted_data=..., cost=...,
    processing_time=..., cache_hit=...)]. *)
Definition ExtractionResponse_new (data : dict pyval) (cost processing_time : float)
    (cache_hit : bool) : outcome ExtractionResponse :=
  try! data' := validate_extracted_data data in
  Ok {| response_extracted_data := data';
        response_cost := cost;
        response_processing_time := processing_time;
        response_cache_hit := cache_hit |}.

(** The path the PDF is read from. *)
Definition resolve_pdf_path (item : BatchItem) : outcome string :=
  let path := pdf_path item in
  if negb (os_path_exists P path) then
    (* Try relative to files directory *)
    let path := os_path_join "files" (pdf_path item) in
    if negb (os_path_exists P path) then Raise FileNotFoundError
    else Ok path
  else Ok path.

(** The [try] block of the loop up to and including the call of the
    extraction service. *)
Definition read_and_extract (item : BatchItem) : M Result :=
  let! path := lift (resolve_pdf_path item) in
  let! pdf_content := lift (read_binary P path) in
  ExtractionService_extract pdf_content (extraction_schema item)
    (Some (label item)).

(** The [except] block of the loop. *)
Definition append_failed (item : BatchItem) (results : list ExtractionResponse)
    : outcome (list ExtractionResponse) :=
  try! response :=
    ExtractionResponse_new
      (none_for_fields (dict_keys (extraction_schema item)))
      0%float 0%float false in
  Ok (results ++ [response])%list.

(** One iteration of the loop over [batch_request.requests], on the locals
    [results] and [total_cost]. [total_cost] is added to before the response
    is built, and keeps its new value when building it raises. *)
Definition batch_step (locals : list ExtractionResponse * float)
    (item : BatchItem) : M (list ExtractionResponse * float) := λ w,
  let '(results, total_cost) := locals in
  match read_and_extract item w with
  | (w', Ok result) =>
      let total_cost := (total_cost + cost result)%float in
      match ExtractionResponse_new (extracted_data result) (cost result)
              (processing_time result) (cache_hit result) with
      | Ok response => (w', Ok ((results ++ [response])%list, total_cost))
      | Raise _ =>
          (w', try! results := append_failed item results in
               Ok (results, total_cost))
      end
  | (w', Raise _) =>
      (w', try! results := append_failed item results in
           Ok (results, total_cost))
  end.

Fixpoint batch_loop (requests : list BatchItem)
    (locals : list ExtractionResponse * float)
    : M (list ExtractionResponse * float) :=
  match requests with
  | [] => ret locals
  | item :: requests' =>
      let! locals' := batch_step locals item in
      batch_loop requests' locals'
  end.

Definition extract_batch (requests : list BatchItem)
    : M BatchExtractionResponse :=
  let! start_time := time_now in
  let! locals := batch_loop requests ([], 0%float) in
  let! now := time_now in
  ret {| results := locals.1;
         total_cost := locals.2;
         total_processing_time := (now - start_time)%float |}.

End Service.

(** ** Stub platforms

    The end-to-end scenario: an invoice whose text is sent to a stub
    completion endpoint that reports 100 input and 20 output tokens. *)

#[global] Instance byte_eq_decision : EqDecision byte := Byte.byte_eq_dec.

Module Stub.

Definition quoted (s : string) : string := dquote ++ s ++ dquote.

Definition invoice_pdf : list byte := String.list_byte_of_string "%PDF-1.4 invoice".
Definition blank_pdf : list byte := String.list_byte_of_string "%PDF-1.4 blank".
Definition empty_pdf : list byte := String.list_byte_of_string "%PDF-1.4 empty".
Definition corrupt_pdf : list byte := String.list_byte_of_string "not a pdf".

Definition invoice_text : string := "Invoice #1234, Total: $56.78".

Definition invoice_schema : dict string :=
  [("invoice_number", "the invoice number"); ("total", "the total amount")].

Definition invoice_schema_reordered : dict string :=
  [("total", "the total amount"); ("invoice_number", "the invoice number")].

Definition invoice_json : string :=
  "{" ++ quoted "invoice_number" ++ ": " ++ quoted "1234" ++ ", " ++
  quoted "total" ++ ": " ++ quoted "56.78" ++ "}".

Definition invoice_fields : dict pyval :=
  [("invoice_number", PyStr "1234"); ("total", PyStr "56.78")].

Definition loads (content : string) : option pyval :=
  if decide (content = invoice_json) then Some (PyDict invoice_fields) else None.

Definition open_pdf (b : list byte) : outcome (list Page) :=
  if decide (b = invoice_pdf) then Ok [mkPage (Ok (Some invoice_text))]
  else if decide (b = blank_pdf) then Ok [mkPage (Ok (Some " "))]
  else if decide (b = empty_pdf) then Ok [mkPage (Ok (Some ""))]
  else Raise PDFSyntaxError.

Definition getenv (name : string) : option string :=
  if decide (name = "OPENAI_API_KEY") then Some "sk-test" else None.

Definition answer : ChatCompletion :=
  {| usage := Some {| prompt_tokens := 100; completion_tokens := 20 |};
     choices := [Some invoice_json] |}.

Definition path_exists (path : string) : bool :=
  bool_decide (path = "files/invoice.pdf").

Definition read (path : string) : outcome (list byte) :=
  if decide (path = "files/invoice.pdf") then Ok invoice_pdf else Raise OSError.

Definition clock (n : nat) : float := PrimFloat.of_uint63 (Uint63.of_Z (Z.of_nat n)).

(** A platform around a given completion endpoint. The digest is the
    identity on bytes, which has no collisions. *)
Definition platform (create : nat → string → string → string → outcome ChatCompletion)
    : Platform :=
  {| sha256_hexdigest := String.string_of_list_byte;
     json_encode_str := quoted;
     json_loads := loads;
     pdfplumber_open := open_pdf;
     os_getenv := getenv;
     openai_new := λ _, Ok tt;
     chat_completions_create := create;
     time_time := clock;
     os_path_exists := path_exists;
     read_binary := read;
     pydantic_coerce_str := λ _, None |}.

(** The endpoint answers. *)
Definition up : Platform := platform (λ _ _ _ _, Ok answer).

(** The endpoint is unreachable. *)
Definition down : Platform := platform (λ _ _ _ _, Raise APIError).

(** A fresh process: empty cache, no client built yet. *)
Definition fresh : World :=
  {| _cache := ∅; _llm_service := None; llm_calls := 0; clock_reads := 0 |}.

Definition requests : list BatchItem :=
  [ {| label := "invoice"; extraction_schema := invoice_schema;
       pdf_path := "invoice.pdf" |};
    {| label := "invoice"; extraction_schema := invoice_schema;
       pdf_path := "missing.pdf" |};
    {| label := "invoice"; extraction_schema := invoice_schema_reordered;
       pdf_path := "files/invoice.pdf" |} ].

End Stub.

(** ** Notions the properties are stated with *)

(** A text with nothing but white space in it; the empty text is one. *)
Fixpoint whitespace_only (text : string) : bool :=
  match text with
  | EmptyString => true
  | String c text' => Ascii.is_space c && whitespace_only text'
  end.

(** The first page of the document yields [text]. *)
Definition first_page_text (P : Platform) (pdf_content : list byte)
    (text : option string) : Prop :=
  ∃ page pages,
    pdfplumber_open P pdf_content = Ok (page :: pages)
    ∧ extract_text page = Ok text.

(** The processing time a call of [extract] started in [w] reports. *)
Definition elapsed (P : Platform) (w : World) : float :=
  (time_time P (S (clock_reads w)) - time_time P (clock_reads w))%float.

(** What the LLM client hands to [extract] when called in [w]. *)
Definition llm_answer (P : Platform) (service : LLMService) (text : string)
    (schema : dict string) (label : option string) (w : World)
    : dict pyval * float :=
  match (extract_data_try P service (_build_prompt text schema label) schema w).2 with
  | Ok data_cost => data_cost
  | Raise _ => (none_for_fields (dict_keys schema), 0%float)
  end.

(** Two calls of [extract] in a row with the same arguments: the first is
    a miss, the second a hit, and both carry the same data and cost. *)
Definition miss_then_hit (P : Platform) (pdf_content : list byte)
    (schema : dict string) (label : option string) (w : World) : Prop :=
  ∃ w1 r1 w2 r2,
    ExtractionService_extract P pdf_content schema label w = (w1, Ok r1)
    ∧ ExtractionService_extract P pdf_content schema label w1 = (w2, Ok r2)
    ∧ cache_hit r1 = false
    ∧ cache_hit r2 = true
    ∧ extracted_data r2 = extracted_data r1
    ∧ cost r2 = cost r1.

(** Every cached result was stored for some document and schema that have
    its key, and has the fields of that schema, in the schema's order.
    [extract] is the only writer of the cache. *)
Definition cache_provenance (P : Platform) (c : gmap string Result) : Prop :=
  ∀ key cached,
    c !! key = Some cached →
    ∃ pdf_content schema,
      dict_wf schema
      ∧ _generate_key P pdf_content schema = key
      ∧ dict_keys (extracted_data cached) = dict_keys schema.


(** The record the batch endpoint puts in place of a failed item. *)
Definition absent_response (item : BatchItem) : ExtractionResponse :=
  {| response_extracted_data :=
       (λ field, (field, None)) <$> dict_keys (extraction_schema item);
     response_cost := 0%float;
     response_processing_time := 0%float;
     response_cache_hit := false |}.

(** What the [try] block of the batch loop comes to for [item] in [w]:
    an exception, or the response to append. *)
Definition item_outcome (P : Platform) (item : BatchItem) (w : World)
    : outcome ExtractionResponse :=
  try! result := (read_and_extract P item w).2 in
  ExtractionResponse_new P (extracted_data result) (cost result)
    (processing_time result) (cache_hit result).

(** The world the batch loop leaves after [item]. *)
Definition world_after (P : Platform) (w : World) (item : BatchItem) : World :=
  (read_and_extract P item w).1.

(** ** [app/main.py]: the single-document endpoint *)

(** What can be raised inside the endpoint: an exception of the service, or
    FastAPI's [HTTPException] with its status code. Both are subclasses of
    [Exception]. *)
Inductive endpoint_exn : Type :=
| ServiceError (e : exn)
| HTTPException (status_code : Z).

(** What the client gets: the response model, or the status code of the
    [HTTPException] that left the endpoint. The [detail] text of the
    exception is not modelled. *)
Inductive endpoint_reply : Type :=
| Responds (response : ExtractionResponse)
| HTTPError (status_code : Z).

(** A parsed JSON object whose values are all strings, as a schema. *)
Fixpoint schema_of_items (items : list (string * pyval)) : option (dict string) :=
  match items with
  | [] => Some []
  | (field, PyStr description) :: items' =>
      rest ← schema_of_items items'; Some ((field, description) :: rest)
  | _ => None
  end.

Definition as_schema (schema_dict : pyval) : option (dict string) :=
  match schema_dict with
  | PyDict items => schema_of_items items
  | _ => None
  end.

Section Endpoint.

Context (P : Platform).

(** The endpoint passes whatever [json.loads] returned on to
    [extraction_service.extract]. What [extract] does with a value that is
    not a [Dict[str, str]] is left open here. *)
Context (extract_untyped : list byte → pyval → option string → M Result).

(** The inner [try]: [json.loads], with [JSONDecodeError] turned into
    [HTTPException(status_code=400)]. *)
Definition parse_extraction_schema (extraction_schema : string)
    : endpoint_exn + pyval :=
  match json_loads P extraction_schema with
  | Some schema_dict => inr schema_dict
  | None => inl (HTTPException 400)
  end.

(** The body of the outer [try]. [pdf] is what [await pdf.read()] gives. *)
Definition extract_endpoint_try (label extraction_schema : string)
    (pdf : outcome (list byte)) (w : World)
    : World * (endpoint_exn + ExtractionResponse) :=
  match parse_extraction_schema extraction_schema with
  | inl e => (w, inl e)
  | inr schema_dict =>
      match pdf with
      | Raise e => (w, inl (ServiceError e))
      | Ok pdf_content =>
          let extract :=
            match as_schema schema_dict with
            | Some schema =>
                ExtractionService_extract P pdf_content schema (Some label)
            | None => extract_untyped pdf_content schema_dict (Some label)
            end in
          match extract w with
          | (w', Raise e) => (w', inl (ServiceError e))
          | (w', Ok result) =>
              match ExtractionResponse_new P (extracted_data result)
                      (cost result) (processing_time result)
                      (cache_hit result) with
              | Ok response => (w', inr response)
              | Raise e => (w', inl (ServiceError e))
              end
          end
      end
  end.

(** [except Exception as e: raise HTTPException(status_code=500, ...)]:
    whatever was raised in the body, an [HTTPException] included, is
    replaced. *)
Definition extract_endpoint (label extraction_schema : string)
    (pdf : outcome (list byte)) (w : World) : World * endpoint_reply :=
  match extract_endpoint_try label extraction_schema pdf w with
  | (w', inr response) => (w', Responds response)
  | (w', inl (ServiceError _)) => (w', HTTPError 500)
  | (w', inl (HTTPException _)) => (w', HTTPError 500)
  end.

End Endpoint.

(** ** More stub platforms *)

(** A platform whose digest and JSON string encoder are self-delimiting
    codes: every character is prefixed with a mark and the end is marked
    too, so that no two (document, schema) pairs share a cache key unless
    the schemas have the same items. *)
Module Tagged.

Fixpoint tag (s : string) : string :=
  match s with
  | EmptyString => "."
  | String c s' => String "x" (String c (tag s'))
  end.

(** One item of the serialised schema, and the serialised items followed
    by the closing brace and whatever comes after it. *)
Definition item (kv : string * string) : string :=
  tag kv.1 ++ ": " ++ tag kv.2.

Fixpoint items (l : list (string * string)) (rest : string) : string :=
  match l with
  | [] => "}" ++ rest
  | [kv] => item kv ++ "}" ++ rest
  | kv :: l' => item kv ++ ", " ++ items l' rest
  end.

Definition platform : Platform :=
  {| sha256_hexdigest := λ b, tag (String.string_of_list_byte b);
     json_encode_str := tag;
     json_loads := Stub.loads;
     pdfplumber_open := Stub.open_pdf;
     os_getenv := Stub.getenv;
     openai_new := λ _, Ok tt;
     chat_completions_create := λ _ _ _ _, Ok Stub.answer;
     time_time := Stub.clock;
     os_path_exists := Stub.path_exists;
     read_binary := Stub.read;
     pydantic_coerce_str := λ _, None |}.

End Tagged.

(** Variations of the stub platform: digests of one length, no API key in
    the environment, answers that are not an object of strings, a document
    of two pages. *)
Module Short.

Definition digest (b : list byte) : string :=
  match b with
  | [] => "0"
  | x :: _ => String (ascii_of_byte x) ""
  end.

Definition build_with (digest : list byte → string)
    (loads : string → option pyval)
    (open_pdf : list byte → outcome (list Page))
    (getenv : string → option string)
    (new_client : string → outcome unit) : Platform :=
  {| sha256_hexdigest := digest;
     json_encode_str := Stub.quoted;
     json_loads := loads;
     pdfplumber_open := open_pdf;
     os_getenv := getenv;
     openai_new := new_client;
     chat_completions_create := λ _ _ _ _, Ok Stub.answer;
     time_time := Stub.clock;
     os_path_exists := Stub.path_exists;
     read_binary := Stub.read;
     pydantic_coerce_str := λ _, None |}.

Definition build (digest : list byte → string) (loads : string → option pyval)
    (open_pdf : list byte → outcome (list Page))
    (getenv : string → option string) : Platform :=
  build_with digest loads open_pdf getenv (λ _, Ok tt).

Definition platform : Platform :=
  build digest Stub.loads Stub.open_pdf Stub.getenv.


Definition no_key : Platform :=
  build String.string_of_list_byte Stub.loads Stub.open_pdf (λ _, None).

Definition list_answer : Platform :=
  build String.string_of_list_byte (λ _, Some (PyList [PyStr "1234"]))
    Stub.open_pdf Stub.getenv.

Definition numeric_fields : dict pyval :=
  [("invoice_number", PyInt 1234); ("total", PyStr "56.78");
   ("currency", PyStr "USD")].

Definition numeric_answer : Platform :=
  build String.string_of_list_byte (λ _, Some (PyDict numeric_fields))
    Stub.open_pdf Stub.getenv.

Definition open_two_pages (b : list byte) : outcome (list Page) :=
  if decide (b = Stub.invoice_pdf) then Ok [mkPage (Ok (Some Stub.invoice_text))]
  else Ok [mkPage (Ok (Some Stub.invoice_text)); mkPage (Raise PDFSyntaxError)].

Definition two_pages : Platform :=
  build String.string_of_list_byte Stub.loads open_two_pages Stub.getenv.

Definition missing_requests : list BatchItem :=
  [ {| label := "invoice"; extraction_schema := Stub.invoice_schema;
       pdf_path := "missing.pdf" |};
    {| label := ""; extraction_schema := Stub.invoice_schema_reordered;
       pdf_path := "/tmp/gone.pdf" |} ].

End Short.

(** The sum the batch loop keeps in [total_cost]: the cost of every item
    whose extraction returned, in order. *)
Fixpoint batch_total (P : Platform) (requests : list BatchItem) (w : World)
    (total : float) : float :=
  match requests with
  | [] => total
  | item :: requests' =>
      batch_total P requests' (world_after P w item)
        match (read_and_extract P item w).2 with
        | Ok result => (total + cost result)%float
        | Raise _ => total
        end
  end.

(** A field name of [n] characters and the schema with that one field; all
    characters and all strings of a given length. *)
Fixpoint field_of_size (n : nat) : string :=
  match n with
  | 0 => EmptyString
  | S n' => String "a" (field_of_size n')
  end.

Definition one_field_schema (n : nat) : dict string := [(field_of_size n, "")].

Definition all_ascii : list ascii := ascii_of_nat <$> seq 0 256.

Fixpoint strings_of_length (n : nat) : list string :=
  match n with
  | 0 => [EmptyString]
  | S n' => c ← all_ascii; s ← strings_of_length n'; [String c s]
  end.

(** * Properties *)

Local Open Scope list_scope.

(** ** Dictionaries *)

Section Dict.

Context {V : Type}.
Implicit Types (d : dict V) (k : string) (v : V).

Lemma dict_set_fresh d k v :
  k ∉ dict_keys d → dict_set d k v = d ++ [(k, v)].
Proof.
  induction d as [|[k' v'] d IH]; simpl; [done|].
  intros Hk. apply not_elem_of_cons in Hk as [Hne Hk].
  case_decide; [congruence|]. by rewrite IH.
Qed.

Lemma dict_keys_app d1 d2 : dict_keys (d1 ++ d2) = dict_keys d1 ++ dict_keys d2.
Proof. apply fmap_app. Qed.

Lemma dict_keys_fmap_pair (f : string → V) (fields : list string) :
  dict_keys ((λ k, (k, f k)) <$> fields) = fields.
Proof.
  unfold dict_keys. rewrite <- list_fmap_compose.
  induction fields as [|k fields IH]; [done|]. simpl. by f_equal.
Qed.

(** Setting fresh keys one after the other lays them out in order. *)
Lemma foldl_dict_set_fresh (f : string → V) (fields : list string) d :
  NoDup (dict_keys d ++ fields) →
  foldl (λ acc field, dict_set acc field (f field)) d fields
  = d ++ ((λ k, (k, f k)) <$> fields).
Proof.
  revert d. induction fields as [|k fields IH]; intros d Hnd; simpl.
  - by rewrite app_nil_r.
  - apply NoDup_app in Hnd as Hsplit. destruct Hsplit as (Hd & Hdisj & Hf).
    rewrite dict_set_fresh.
    + rewrite IH.
      * by rewrite <- app_assoc.
      * rewrite dict_keys_app. simpl. by rewrite <- app_assoc.
    + intros Hin. apply (Hdisj k Hin). left.
Qed.

End Dict.

Lemma none_for_fields_NoDup (fields : list string) :
  NoDup fields →
  none_for_fields fields = (λ k, (k, PyNone)) <$> fields.
Proof.
  intros Hnd. unfold none_for_fields.
  by rewrite (foldl_dict_set_fresh (λ _, PyNone) fields []).
Qed.

Lemma none_for_fields_keys (fields : list string) :
  NoDup fields → dict_keys (none_for_fields fields) = fields.
Proof.
  intros Hnd. rewrite none_for_fields_NoDup by done.
  apply (dict_keys_fmap_pair (λ _, PyNone)).
Qed.

Lemma invoice_schema_wf : dict_wf Stub.invoice_schema.
Proof. apply (bool_decide_unpack _). vm_compute. exact I. Qed.

Lemma invoice_schema_reordered_wf : dict_wf Stub.invoice_schema_reordered.
Proof. apply (bool_decide_unpack _). vm_compute. exact I. Qed.

(** ** The order on items *)

Lemma string_compare_refl (s : string) : String.compare s s = Eq.
Proof.
  pose proof (String.compare_antisym s s) as H.
  destruct (String.compare s s); simpl in H; congruence.
Qed.

Lemma item_le_spec (a b : string * string) :
  item_le a b ↔ String.le a.1 b.1 ∧ (a.1 = b.1 → String.le a.2 b.2).
Proof.
  unfold item_le, item_leb, String.le, String.leb.
  destruct (String.compare a.1 b.1) eqn:Hc; simpl.
  - apply String.compare_eq_iff in Hc. tauto.
  - split; [|done]. intros _. split; [done|].
    intros Heq. rewrite Heq, string_compare_refl in Hc. discriminate.
  - tauto.
Qed.

#[local] Instance item_le_total : Total item_le.
Proof.
  intros a b. rewrite !item_le_spec.
  destruct (total String.le a.1 b.1) as [H1|H1],
           (total String.le a.2 b.2) as [H2|H2];
    destruct (decide (String.le b.1 a.1)) as [H3|H3],
             (decide (String.le a.1 b.1)) as [H4|H4];
    try (exfalso; tauto);
    try (assert (a.1 = b.1) as Heq by (by apply (anti_symm String.le));
         rewrite Heq; by eauto);
    try (left; split; [done|];
         intros Heq; rewrite Heq in H3; by destruct H3);
    try (right; split; [done|];
         intros Heq; rewrite Heq in H4; by destruct H4).
Qed.

#[local] Instance item_le_trans : Transitive item_le.
Proof.
  intros a b c. rewrite !item_le_spec. intros [Hab Hab'] [Hbc Hbc'].
  split; [by etrans|].
  intros Heq.
  assert (b.1 = c.1) as Hbc1.
  { apply (anti_symm String.le); [done|]. by rewrite <- Heq. }
  assert (a.1 = b.1) as Hab1 by congruence.
  trans b.2; auto.
Qed.

#[local] Instance item_le_anti_symm : AntiSymm (=) item_le.
Proof.
  intros [a1 a2] [b1 b2]. rewrite !item_le_spec. simpl.
  intros [H1 H1'] [H2 H2'].
  assert (a1 = b1) as -> by (by apply (anti_symm String.le)).
  f_equal. apply (anti_symm String.le); auto.
Qed.

(** Sorting forgets the insertion order. *)
Lemma sorted_items_Permutation (s1 s2 : dict string) :
  s1 ≡ₚ s2 → sorted_items s1 = sorted_items s2.
Proof.
  intros Hperm. unfold sorted_items.
  apply (Sorted_unique item_le).
  - apply Sorted_merge_sort, _.
  - apply Sorted_merge_sort, _.
  - by rewrite !merge_sort_Permutation.
Qed.

(** ** The cache *)

Example sorted_items_reordered :
  sorted_items Stub.invoice_schema_reordered = Stub.invoice_schema.
Proof. vm_compute. reflexivity. Qed.

Example generate_key_invoice :
  _generate_key Stub.up Stub.invoice_pdf [("b", "y"); ("a", "x")]
  = ("%PDF-1.4 invoice:{" ++ Stub.quoted "a" ++ ": " ++ Stub.quoted "x" ++ ", "
      ++ Stub.quoted "b" ++ ": " ++ Stub.quoted "y" ++ "}")%string.
Proof. vm_compute. reflexivity. Qed.

Lemma CacheService_get_set (P : Platform) {V : Type} (c : gmap string V)
    (pdf_content : list byte) (schema : dict string) (result : V) :
  CacheService_get P (CacheService_set P c pdf_content schema result)
    pdf_content schema = Some result.
Proof. apply lookup_insert_eq. Qed.

(** C2: two schemas with the same field-name/description pairs in a
    different insertion order get the same cache key for the same document
    bytes, so looking up and storing under the one is looking up and storing
    under the other. *)
Theorem generate_key_insertion_order (P : Platform) (pdf_content : list byte)
    (schema1 schema2 : dict string) :
  schema1 ≡ₚ schema2 →
  _generate_key P pdf_content schema1 = _generate_key P pdf_content schema2
  ∧ (∀ (c : gmap string Result),
       CacheService_get P c pdf_content schema1
       = CacheService_get P c pdf_content schema2)
  ∧ (∀ (c : gmap string Result) (result : Result),
       CacheService_set P c pdf_content schema1 result
       = CacheService_set P c pdf_content schema2 result).
Proof.
  intros Hperm.
  assert (_generate_key P pdf_content schema1
          = _generate_key P pdf_content schema2) as Hkey.
  { unfold _generate_key, json_dumps_sort_keys.
    by rewrite (sorted_items_Permutation schema1 schema2). }
  split; [done|].
  unfold CacheService_get, CacheService_set. rewrite Hkey. done.
Qed.

Lemma generate_key_insertion_order_witness :
  Stub.invoice_schema ≡ₚ Stub.invoice_schema_reordered
  ∧ _generate_key Stub.up Stub.invoice_pdf Stub.invoice_schema
    = _generate_key Stub.up Stub.invoice_pdf Stub.invoice_schema_reordered.
Proof.
  split; [apply perm_swap|].
  apply (generate_key_insertion_order Stub.up Stub.invoice_pdf
           Stub.invoice_schema Stub.invoice_schema_reordered).
  apply perm_swap.
Defined.

(** C10: [get] right after [set] with the same document and schema returns
    the stored result, and [set] makes the cache one entry larger when the
    key was absent and leaves its size alone when the key was present. *)
Theorem cache_set_get_size (P : Platform) {V : Type} (c : gmap string V)
    (pdf_content : list byte) (schema : dict string) (result : V) :
  CacheService_get P (CacheService_set P c pdf_content schema result)
    pdf_content schema = Some result
  ∧ CacheService_size (CacheService_set P c pdf_content schema result)
    = CacheService_size c
      + (if CacheService_get P c pdf_content schema is Some _ then 0 else 1).
Proof.
  unfold CacheService_get, CacheService_set, CacheService_size.
  split; [apply lookup_insert_eq|].
  destruct (c !! _generate_key P pdf_content schema) as [old|] eqn:Hold.
  - rewrite map_size_insert_Some by (by rewrite Hold). lia.
  - rewrite map_size_insert_None by done. lia.
Qed.

(** ** The text extractor *)

Lemma extract_text_from_pdf_first_page (P : Platform) (pdf_content : list byte)
    (text : option string) :
  first_page_text P pdf_content text →
  extract_text_from_pdf P pdf_content = if str_truthy text then text else None.
Proof.
  intros (page & pages & Hopen & Htext).
  unfold extract_text_from_pdf. rewrite Hopen. simpl. by rewrite Htext.
Qed.

(** What comes back is never the empty string. *)
Lemma extract_text_from_pdf_truthy (P : Platform) (pdf_content : list byte)
    (text : string) :
  extract_text_from_pdf P pdf_content = Some text →
  str_truthy (Some text) = true.
Proof.
  unfold extract_text_from_pdf.
  destruct (pdfplumber_open P pdf_content) as [[|page pages]|]; simpl; try done.
  destruct (extract_text page) as [t|]; simpl; [|done].
  destruct (str_truthy t) eqn:Ht; [|done]. by intros ->.
Qed.

Example extract_text_invoice :
  extract_text_from_pdf Stub.up Stub.invoice_pdf = Some Stub.invoice_text.
Proof. reflexivity. Qed.

Example extract_text_corrupt :
  extract_text_from_pdf Stub.up Stub.corrupt_pdf = None.
Proof. reflexivity. Qed.

(** C6, as stated, fails: a first page whose text is a single space is white
    space only, and the extractor returns that text, not [None]. *)
Lemma extract_text_whitespace_counterexample :
  ¬ (∀ text : string,
       first_page_text Stub.up Stub.blank_pdf (Some text) →
       whitespace_only text = true →
       extract_text_from_pdf Stub.up Stub.blank_pdf = None).
Proof.
  intros H. specialize (H " ").
  assert (extract_text_from_pdf Stub.up Stub.blank_pdf = None) as Hnone.
  { apply H; [|reflexivity].
    exists (mkPage (Ok (Some " "))), []. split; reflexivity. }
  vm_compute in Hnone. discriminate.
Qed.

(** C6, amended: when the first page yields no text or the empty string the
    extractor returns [None]; any other text, white space only or not, is
    returned as it is. *)
Theorem extract_text_empty_is_absent (P : Platform) (pdf_content : list byte)
    (text : option string) :
  first_page_text P pdf_content text →
  (text = None ∨ text = Some "" → extract_text_from_pdf P pdf_content = None)
  ∧ (∀ c rest, text = Some (String c rest) →
       extract_text_from_pdf P pdf_content = Some (String c rest)).
Proof.
  intros Hfirst.
  rewrite (extract_text_from_pdf_first_page P pdf_content text Hfirst).
  split.
  - by intros [-> | ->].
  - by intros c rest ->.
Qed.

Lemma extract_text_empty_is_absent_witness :
  (first_page_text Stub.up Stub.empty_pdf (Some "")
   ∧ extract_text_from_pdf Stub.up Stub.empty_pdf = None)
  ∧ (first_page_text Stub.up Stub.blank_pdf (Some " ")
     ∧ extract_text_from_pdf Stub.up Stub.blank_pdf = Some " ").
Proof.
  assert (first_page_text Stub.up Stub.empty_pdf (Some "")) as Hempty.
  { exists (mkPage (Ok (Some ""))), []. split; reflexivity. }
  assert (first_page_text Stub.up Stub.blank_pdf (Some " ")) as Hblank.
  { exists (mkPage (Ok (Some " "))), []. split; reflexivity. }
  split; (split; [assumption|]).
  - exact (proj1 (extract_text_empty_is_absent Stub.up Stub.empty_pdf
                    (Some "") Hempty) (or_intror eq_refl)).
  - exact (proj2 (extract_text_empty_is_absent Stub.up Stub.blank_pdf
                    (Some " ") Hblank) " "%char ""%string eq_refl).
Defined.

(** ** The LLM client *)

Section LLMClient.

Context (P : Platform).
Implicit Types (self : LLMService) (w : World) (schema : dict string).

(** The [try] block makes exactly one remote call and changes nothing
    else. *)
Lemma extract_data_try_world self prompt schema w :
  (extract_data_try P self prompt schema w).1 = with_llm_calls (S (llm_calls w)) w.
Proof.
  unfold extract_data_try, bind, create_completion, lift. simpl.
  by destruct (chat_completions_create P _ _ _ _).
Qed.

Lemma extract_data_try_outcome self prompt schema w :
  (extract_data_try P self prompt schema w).2
  = obind (chat_completions_create P (llm_calls w) (model self) system_content prompt)
      (read_response P schema).
Proof.
  unfold extract_data_try, bind, create_completion, lift. simpl.
  by destruct (chat_completions_create P _ _ _ _).
Qed.

(** Its outcome depends on the world through the call count alone. *)
Lemma extract_data_try_outcome_calls self prompt schema w1 w2 :
  llm_calls w1 = llm_calls w2 →
  (extract_data_try P self prompt schema w1).2
  = (extract_data_try P self prompt schema w2).2.
Proof. intros Hcalls. by rewrite !extract_data_try_outcome, Hcalls. Qed.

Lemma extract_data_run self text schema label w :
  LLMService_extract_data P self text schema label w
  = (with_llm_calls (S (llm_calls w)) w,
     Ok match (extract_data_try P self (_build_prompt text schema label) schema w).2 with
        | Ok data_cost => data_cost
        | Raise _ => (none_for_fields (dict_keys schema), 0%float)
        end).
Proof.
  unfold LLMService_extract_data, try_except.
  pose proof (extract_data_try_world self (_build_prompt text schema label) schema w) as Hw.
  destruct (extract_data_try P self (_build_prompt text schema label) schema w)
    as [w' [data_cost|e]]; simpl in *; by rewrite Hw.
Qed.

(** Filling the fields from a JSON object keeps one entry per field. *)
Lemma fill_fields_object (j : dict pyval) (fields : list string) (acc : dict pyval) :
  NoDup (dict_keys acc ++ fields) →
  fill_fields (PyDict j) fields acc
  = Ok (acc ++ ((λ k, (k, default PyNone (dict_get j k))) <$> fields)).
Proof.
  revert acc. induction fields as [|k fields IH]; intros acc Hnd; simpl.
  - by rewrite app_nil_r.
  - apply NoDup_app in Hnd as Hsplit. destruct Hsplit as (_ & Hdisj & _).
    rewrite dict_set_fresh by (intros Hin; apply (Hdisj k Hin); left).
    rewrite IH.
    + by rewrite <- app_assoc.
    + rewrite dict_keys_app. simpl. by rewrite <- app_assoc.
Qed.

(** Whenever filling succeeds, the keys are the fields. *)
Lemma fill_fields_keys (result_json : pyval) (fields : list string)
    (data : dict pyval) :
  NoDup fields →
  fill_fields result_json fields [] = Ok data → dict_keys data = fields.
Proof.
  intros Hnd. destruct result_json as [| | | | | |j];
    try (destruct fields; simpl; [by intros [= <-]|done]).
  rewrite fill_fields_object by done. intros [= <-]. simpl.
  apply (dict_keys_fmap_pair (λ k, default PyNone (dict_get j k))).
Qed.

Lemma read_response_keys schema response data c :
  dict_wf schema →
  read_response P schema response = Ok (data, c) → dict_keys data = dict_keys schema.
Proof.
  intros Hwf. unfold read_response.
  destruct (usage response) as [u|]; simpl; [|done].
  destruct (usage_cost _ _) as [c'|]; simpl; [|done].
  destruct (head (choices response)) as [[content|]|]; simpl; try done.
  destruct (json_loads P content) as [j|]; simpl; [|done].
  destruct (fill_fields j (dict_keys schema) []) as [data'|] eqn:Hfill; simpl; [|done].
  intros [= <- <-]. by apply (fill_fields_keys j).
Qed.

End LLMClient.

Example extract_data_invoice :
  (LLMService_extract_data Stub.up (mkLLMService "sk-test" "gpt-5-mini")
     Stub.invoice_text Stub.invoice_schema (Some "invoice") Stub.fresh).2
  = Ok (Stub.invoice_fields, 0.0000135%float).
Proof. vm_compute. reflexivity. Qed.

Example build_prompt_invoice :
  _build_prompt "T" [("a", "x"); ("b", "y")] (Some "invoice")
  = ("Extract the following fields from this text. Return JSON only." ++ nl ++
     "Document type (label): invoice" ++ nl ++ nl ++ nl ++
     "Fields to extract:" ++ nl ++
     dquote ++ "a" ++ dquote ++ ": x" ++ nl ++
     dquote ++ "b" ++ dquote ++ ": y" ++ nl ++ nl ++
     "Text:" ++ nl ++ "T")%string.
Proof. vm_compute. reflexivity. Qed.

(** C4: whatever error the remote call and the reading of its answer raise,
    [extract_data] raises nothing: it returns every schema field mapped to
    [None] together with the cost [0.0]. *)
Theorem extract_data_failure_policy (P : Platform) (self : LLMService)
    (text : string) (schema : dict string) (label : option string)
    (w : World) (e : exn) :
  dict_wf schema →
  (extract_data_try P self (_build_prompt text schema label) schema w).2 = Raise e →
  (LLMService_extract_data P self text schema label w).2
  = Ok ((λ field, (field, PyNone)) <$> dict_keys schema, 0%float).
Proof.
  intros Hwf Hraise. rewrite extract_data_run. simpl. rewrite Hraise.
  by rewrite none_for_fields_NoDup.
Qed.

Lemma extract_data_failure_policy_witness :
  (LLMService_extract_data Stub.down (mkLLMService "sk-test" "gpt-5-mini")
     Stub.invoice_text Stub.invoice_schema (Some "invoice") Stub.fresh).2
  = Ok ([("invoice_number", PyNone); ("total", PyNone)], 0%float).
Proof.
  exact (extract_data_failure_policy Stub.down
           (mkLLMService "sk-test" "gpt-5-mini") Stub.invoice_text
           Stub.invoice_schema (Some "invoice") Stub.fresh APIError
           invoice_schema_wf eq_refl).
Defined.

(** The errors the claim names do make the [try] block raise. *)
Lemma extract_data_try_remote_error (P : Platform) (self : LLMService)
    (prompt : string) (schema : dict string) (w : World) (e : exn) :
  chat_completions_create P (llm_calls w) (model self) system_content prompt = Raise e →
  (extract_data_try P self prompt schema w).2 = Raise e.
Proof. intros Hcreate. by rewrite extract_data_try_outcome, Hcreate. Qed.

Lemma extract_data_try_malformed_json (P : Platform) (self : LLMService)
    (prompt : string) (schema : dict string) (w : World)
    (u : Usage) (content : string) (more : list (option string)) (c : float) :
  chat_completions_create P (llm_calls w) (model self) system_content prompt
  = Ok {| usage := Some u; choices := Some content :: more |} →
  usage_cost (prompt_tokens u) (completion_tokens u) = Ok c →
  json_loads P content = None →
  (extract_data_try P self prompt schema w).2 = Raise JSONDecodeError.
Proof.
  intros Hcreate Hcost Hjson. rewrite extract_data_try_outcome, Hcreate.
  unfold read_response. simpl. rewrite Hcost. simpl. by rewrite Hjson.
Qed.

Example float_of_int_100 : float_of_int 100 = Ok 100%float.
Proof. reflexivity. Qed.

Example float_of_int_too_large : float_of_int (2 ^ 1024) = Raise OverflowError.
Proof. vm_compute. reflexivity. Qed.

(** C9: when the LLM call succeeds, the cost [extract_data] reports is
    [input_tokens * 0.075 / 1_000_000 + output_tokens * 0.30 / 1_000_000]
    in binary64 arithmetic; for 100 input and 20 output tokens this is the
    float [0.0000135]. *)
Theorem extract_data_cost (P : Platform) (self : LLMService) (text : string)
    (schema : dict string) (label : option string) (w : World)
    (data : dict pyval) (c : float) :
  (extract_data_try P self (_build_prompt text schema label) schema w).2
  = Ok (data, c) →
  (LLMService_extract_data P self text schema label w).2 = Ok (data, c)
  ∧ ∃ response u input output,
      chat_completions_create P (llm_calls w) (model self) system_content
        (_build_prompt text schema label) = Ok response
      ∧ usage response = Some u
      ∧ float_of_int (prompt_tokens u) = Ok input
      ∧ float_of_int (completion_tokens u) = Ok output
      ∧ c = (input * 0.075 / 1000000 + output * 0.30 / 1000000)%float
      ∧ (prompt_tokens u = 100%Z → completion_tokens u = 20%Z →
         c = 0.0000135%float).
Proof.
  intros Htry. split.
  { rewrite extract_data_run. simpl. by rewrite Htry. }
  rewrite extract_data_try_outcome in Htry.
  destruct (chat_completions_create P _ _ _ _) as [response|]; simpl in Htry; [|done].
  unfold read_response in Htry.
  destruct (usage response) as [u|] eqn:Husage; simpl in Htry; [|done].
  unfold usage_cost in Htry.
  destruct (float_of_int (prompt_tokens u)) as [input|] eqn:Hin; simpl in Htry; [|done].
  destruct (float_of_int (completion_tokens u)) as [output|] eqn:Hout; simpl in Htry; [|done].
  destruct (head (choices response)) as [[content|]|]; simpl in Htry; try done.
  destruct (json_loads P content) as [j|]; simpl in Htry; [|done].
  destruct (fill_fields j (dict_keys schema) []) as [data'|]; simpl in Htry; [|done].
  injection Htry as <- <-.
  exists response, u, input, output. repeat split; try done.
  intros H100 H20. rewrite H100 in Hin. rewrite H20 in Hout.
  vm_compute in Hin. vm_compute in Hout.
  injection Hin as <-. injection Hout as <-. reflexivity.
Qed.

Lemma extract_data_cost_witness :
  (LLMService_extract_data Stub.up (mkLLMService "sk-test" "gpt-5-mini")
     Stub.invoice_text Stub.invoice_schema (Some "invoice") Stub.fresh).2
  = Ok (Stub.invoice_fields, 0.0000135%float).
Proof.
  exact (proj1 (extract_data_cost Stub.up (mkLLMService "sk-test" "gpt-5-mini")
                  Stub.invoice_text Stub.invoice_schema (Some "invoice")
                  Stub.fresh Stub.invoice_fields 0.0000135%float eq_refl)).
Defined.

(** ** The orchestrator *)

Section Orchestrator.

Context (P : Platform).
Implicit Types (pdf : list byte) (schema : dict string) (label : option string)
  (w : World).

Lemma get_llm_service_frame w w' wl service :
  get_llm_service P w = (wl, Ok service) →
  _llm_service w' = _llm_service w →
  get_llm_service P w' = (with_llm_service (Some service) w', Ok service).
Proof.
  unfold get_llm_service. intros Hget Heq. rewrite Heq.
  destruct (_llm_service w) as [s|] eqn:Hs.
  - injection Hget as _ <-. destruct w'; simpl in *. by subst.
  - destruct (LLMService_init P) as [s|]; [|done]. by injection Hget as _ <-.
Qed.

Lemma get_llm_service_raise_frame w w' wl e :
  get_llm_service P w = (wl, Raise e) →
  _llm_service w' = _llm_service w →
  get_llm_service P w' = (w', Raise e).
Proof.
  unfold get_llm_service. intros Hget Heq. rewrite Heq.
  destruct (_llm_service w) as [s|]; [done|].
  destruct (LLMService_init P) as [s|]; [done|]. by injection Hget as _ <-.
Qed.

(** *** The four ways through [extract] *)

Lemma extract_hit pdf schema label w cached :
  CacheService_get P (_cache w) pdf schema = Some cached →
  ExtractionService_extract P pdf schema label w
  = (with_clock_reads (S (S (clock_reads w))) w,
     Ok {| extracted_data := extracted_data cached;
           cost := cost cached;
           processing_time := elapsed P w;
           cache_hit := true |}).
Proof.
  intros Hget.
  unfold ExtractionService_extract, bind, time_now, cache_service_get, ret.
  simpl. by rewrite Hget.
Qed.

Lemma extract_no_text pdf schema label w :
  CacheService_get P (_cache w) pdf schema = None →
  extract_text_from_pdf P pdf = None →
  ExtractionService_extract P pdf schema label w
  = (with_clock_reads (S (S (clock_reads w))) w,
     Ok {| extracted_data := none_for_fields (dict_keys schema);
           cost := 0%float;
           processing_time := elapsed P w;
           cache_hit := false |}).
Proof.
  intros Hget Htext.
  unfold ExtractionService_extract, bind, time_now, cache_service_get, ret.
  simpl. by rewrite Hget, Htext.
Qed.

Lemma extract_no_client pdf schema label w text wl e :
  CacheService_get P (_cache w) pdf schema = None →
  extract_text_from_pdf P pdf = Some text →
  get_llm_service P w = (wl, Raise e) →
  ExtractionService_extract P pdf schema label w
  = (with_clock_reads (S (clock_reads w)) w, Raise e).
Proof.
  intros Hget Htext Hservice.
  unfold ExtractionService_extract, bind, time_now, cache_service_get, ret.
  simpl. rewrite Hget, Htext.
  rewrite (extract_text_from_pdf_truthy P pdf text Htext). simpl.
  by rewrite (get_llm_service_raise_frame w _ wl e Hservice).
Qed.

Lemma extract_llm pdf schema label w text wl service :
  CacheService_get P (_cache w) pdf schema = None →
  extract_text_from_pdf P pdf = Some text →
  get_llm_service P w = (wl, Ok service) →
  let result :=
    {| extracted_data := (llm_answer P service text schema label w).1;
       cost := (llm_answer P service text schema label w).2;
       processing_time := elapsed P w;
       cache_hit := false |} in
  ExtractionService_extract P pdf schema label w
  = ({| _cache := CacheService_set P (_cache w) pdf schema result;
        _llm_service := Some service;
        llm_calls := S (llm_calls w);
        clock_reads := S (S (clock_reads w)) |},
     Ok result).
Proof.
  intros Hget Htext Hservice result.
  unfold ExtractionService_extract, bind, time_now, cache_service_get, ret.
  simpl. rewrite Hget, Htext.
  rewrite (extract_text_from_pdf_truthy P pdf text Htext). simpl.
  rewrite (get_llm_service_frame w _ wl service Hservice) by done.
  rewrite extract_data_run. simpl.
  unfold cache_service_set, with_cache. simpl.
  subst result. unfold llm_answer, elapsed.
  rewrite (extract_data_try_outcome_calls P service _ schema _ w) by done.
  reflexivity.
Qed.

End Orchestrator.

Lemma llm_answer_keys (P : Platform) (service : LLMService) (text : string)
    (schema : dict string) (label : option string) (w : World) :
  dict_wf schema →
  dict_keys (llm_answer P service text schema label w).1 = dict_keys schema.
Proof.
  intros Hwf. unfold llm_answer. rewrite extract_data_try_outcome.
  destruct (chat_completions_create P _ _ _ _) as [response|]; simpl.
  - destruct (read_response P schema response) as [[data c]|] eqn:Hread; simpl.
    + by apply (read_response_keys P schema response data c).
    + by apply none_for_fields_keys.
  - by apply none_for_fields_keys.
Qed.

Example extract_invoice_first :
  (ExtractionService_extract Stub.up Stub.invoice_pdf Stub.invoice_schema
     (Some "invoice") Stub.fresh).2
  = Ok {| extracted_data := Stub.invoice_fields;
          cost := 0.0000135%float;
          processing_time := 1%float;
          cache_hit := false |}.
Proof. vm_compute. reflexivity. Qed.

Example extract_invoice_second :
  let w1 := (ExtractionService_extract Stub.up Stub.invoice_pdf
               Stub.invoice_schema (Some "invoice") Stub.fresh).1 in
  (ExtractionService_extract Stub.up Stub.invoice_pdf
     Stub.invoice_schema_reordered (Some "invoice") w1).2
  = Ok {| extracted_data := Stub.invoice_fields;
          cost := 0.0000135%float;
          processing_time := 1%float;
          cache_hit := true |}.
Proof. vm_compute. reflexivity. Qed.

(** C1, as stated, fails: for a document no text can be extracted from,
    nothing is cached, and the second call is a miss like the first. *)
Lemma extract_twice_counterexample :
  ¬ miss_then_hit Stub.up Stub.corrupt_pdf Stub.invoice_schema None Stub.fresh.
Proof.
  intros (w1 & r1 & w2 & r2 & H1 & H2 & _ & Hhit & _).
  rewrite extract_no_text in H1 by reflexivity.
  injection H1 as <- <-.
  rewrite extract_no_text in H2 by reflexivity.
  injection H2 as <- <-. discriminate Hhit.
Qed.

(** C1, amended: for a pair that is not cached yet, whose document yields
    text, and with an LLM client at hand (built already, or buildable from
    the API key), two calls of [extract] in a row give [cache_hit = false]
    and then [cache_hit = true], with the same extracted data and cost. *)
Theorem extract_twice (P : Platform) (pdf_content : list byte)
    (schema : dict string) (label : option string) (w wl : World)
    (text : string) (service : LLMService) :
  CacheService_get P (_cache w) pdf_content schema = None →
  extract_text_from_pdf P pdf_content = Some text →
  get_llm_service P w = (wl, Ok service) →
  miss_then_hit P pdf_content schema label w.
Proof.
  intros Hmiss Htext Hservice.
  pose proof (extract_llm P pdf_content schema label w text wl service
                Hmiss Htext Hservice) as H1.
  simpl in H1.
  eexists _, _, _, _. split; [exact H1|].
  split.
  { apply extract_hit. simpl.
    apply CacheService_get_set. }
  done.
Qed.

Lemma extract_twice_witness :
  miss_then_hit Stub.up Stub.invoice_pdf Stub.invoice_schema (Some "invoice")
    Stub.fresh.
Proof.
  exact (extract_twice Stub.up Stub.invoice_pdf Stub.invoice_schema
           (Some "invoice") Stub.fresh _ Stub.invoice_text _
           eq_refl eq_refl eq_refl).
Defined.

(** C3: for a pair that is not cached, when no text can be extracted,
    [extract] returns every schema field mapped to [None], cost [0.0] and
    [cache_hit = false], and leaves the cache as it was: nothing is stored
    under the pair's key. *)
Theorem extract_no_text_no_store (P : Platform) (pdf_content : list byte)
    (schema : dict string) (label : option string) (w : World) :
  dict_wf schema →
  CacheService_get P (_cache w) pdf_content schema = None →
  extract_text_from_pdf P pdf_content = None →
  ∃ w' r,
    ExtractionService_extract P pdf_content schema label w = (w', Ok r)
    ∧ extracted_data r = (λ field, (field, PyNone)) <$> dict_keys schema
    ∧ cost r = 0%float
    ∧ cache_hit r = false
    ∧ _cache w' = _cache w
    ∧ CacheService_get P (_cache w') pdf_content schema = None.
Proof.
  intros Hwf Hmiss Htext.
  eexists _, _. split; [by apply extract_no_text|]. simpl.
  by rewrite none_for_fields_NoDup.
Qed.

Lemma extract_no_text_no_store_witness :
  ∃ w' r,
    ExtractionService_extract Stub.up Stub.corrupt_pdf Stub.invoice_schema
      None Stub.fresh = (w', Ok r)
    ∧ extracted_data r = [("invoice_number", PyNone); ("total", PyNone)]
    ∧ cost r = 0%float
    ∧ cache_hit r = false
    ∧ _cache w' = ∅
    ∧ CacheService_get Stub.up (_cache w') Stub.corrupt_pdf Stub.invoice_schema
      = None.
Proof.
  exact (extract_no_text_no_store Stub.up Stub.corrupt_pdf Stub.invoice_schema
           None Stub.fresh invoice_schema_wf eq_refl eq_refl).
Defined.

(** C5: when the text is there and the LLM call fails, the all-[None],
    zero-cost result is stored under the pair's key all the same: the next
    identical call is a cache hit with the same all-[None] data and cost
    [0.0], and makes no remote call. *)
Theorem extract_caches_llm_failure (P : Platform) (pdf_content : list byte)
    (schema : dict string) (label : option string) (w wl : World)
    (text : string) (service : LLMService) (e : exn) :
  dict_wf schema →
  CacheService_get P (_cache w) pdf_content schema = None →
  extract_text_from_pdf P pdf_content = Some text →
  get_llm_service P w = (wl, Ok service) →
  (extract_data_try P service (_build_prompt text schema label) schema w).2
  = Raise e →
  ∃ w1 r1 w2 r2,
    ExtractionService_extract P pdf_content schema label w = (w1, Ok r1)
    ∧ extracted_data r1 = (λ field, (field, PyNone)) <$> dict_keys schema
    ∧ cost r1 = 0%float
    ∧ cache_hit r1 = false
    ∧ llm_calls w1 = S (llm_calls w)
    ∧ CacheService_get P (_cache w1) pdf_content schema = Some r1
    ∧ ExtractionService_extract P pdf_content schema label w1 = (w2, Ok r2)
    ∧ cache_hit r2 = true
    ∧ extracted_data r2 = (λ field, (field, PyNone)) <$> dict_keys schema
    ∧ cost r2 = 0%float
    ∧ llm_calls w2 = llm_calls w1.
Proof.
  intros Hwf Hmiss Htext Hservice Hfail.
  pose proof (extract_llm P pdf_content schema label w text wl service
                Hmiss Htext Hservice) as H1.
  simpl in H1. unfold llm_answer in H1. rewrite Hfail in H1. simpl in H1.
  rewrite none_for_fields_NoDup in H1 by done.
  eexists _, _, _, _. split; [exact H1|]. simpl.
  do 4 (split; [done|]).
  split; [apply CacheService_get_set|].
  split.
  { apply extract_hit. simpl. apply CacheService_get_set. }
  done.
Qed.

Lemma extract_caches_llm_failure_witness :
  ∃ w1 r1 w2 r2,
    ExtractionService_extract Stub.down Stub.invoice_pdf Stub.invoice_schema
      (Some "invoice") Stub.fresh = (w1, Ok r1)
    ∧ extracted_data r1 = [("invoice_number", PyNone); ("total", PyNone)]
    ∧ cost r1 = 0%float
    ∧ cache_hit r1 = false
    ∧ llm_calls w1 = 1
    ∧ CacheService_get Stub.down (_cache w1) Stub.invoice_pdf
        Stub.invoice_schema = Some r1
    ∧ ExtractionService_extract Stub.down Stub.invoice_pdf Stub.invoice_schema
        (Some "invoice") w1 = (w2, Ok r2)
    ∧ cache_hit r2 = true
    ∧ extracted_data r2 = [("invoice_number", PyNone); ("total", PyNone)]
    ∧ cost r2 = 0%float
    ∧ llm_calls w2 = llm_calls w1.
Proof.
  exact (extract_caches_llm_failure Stub.down Stub.invoice_pdf
           Stub.invoice_schema (Some "invoice") Stub.fresh _
           Stub.invoice_text _ APIError
           invoice_schema_wf eq_refl eq_refl eq_refl eq_refl).
Defined.

(** ** The batch endpoint *)

Section Batch.

Context (P : Platform).
Implicit Types (item : BatchItem) (w : World) (results : list ExtractionResponse).

Lemma validate_absent (fields : list string) :
  validate_extracted_data P ((λ field, (field, PyNone)) <$> fields)
  = Ok ((λ field, (field, None)) <$> fields).
Proof.
  induction fields as [|field fields IH]; [done|].
  rewrite !fmap_cons. cbn [validate_extracted_data validate_optional_str obind].
  by rewrite IH.
Qed.

(** The [except] block never raises. *)
Lemma append_failed_absent item results :
  dict_wf (extraction_schema item) →
  append_failed P item results = Ok (results ++ [absent_response item]).
Proof.
  intros Hwf. unfold append_failed, ExtractionResponse_new.
  rewrite none_for_fields_NoDup by done. by rewrite validate_absent.
Qed.

(** One iteration appends exactly one response: the item's own, or the
    all-absent record when the [try] block raised. *)
Lemma batch_step_appends item results (total : float) w :
  dict_wf (extraction_schema item) →
  ∃ total',
    batch_step P (results, total) item w
    = (world_after P w item,
       Ok (results ++ [match item_outcome P item w with
                       | Ok response => response
                       | Raise _ => absent_response item
                       end], total')).
Proof.
  intros Hwf. unfold batch_step, item_outcome, world_after.
  destruct (read_and_extract P item w) as [w' [result|e]]; simpl.
  - destruct (ExtractionResponse_new P _ _ _ _) as [response|e]; simpl.
    + by eexists.
    + rewrite append_failed_absent by done. by eexists.
  - rewrite append_failed_absent by done. by eexists.
Qed.

(** The responses of a run of the loop started in [w]. *)
Lemma batch_loop_results (requests : list BatchItem) results (total : float) w :
  Forall (λ item, dict_wf (extraction_schema item)) requests →
  ∃ new total',
    batch_loop P requests (results, total) w
    = (foldl (world_after P) w requests, Ok (results ++ new, total'))
    ∧ length new = length requests
    ∧ ∀ i item,
        requests !! i = Some item →
        new !! i
        = Some match item_outcome P item (foldl (world_after P) w (take i requests)) with
               | Ok response => response
               | Raise _ => absent_response item
               end.
Proof.
  revert results total w.
  induction requests as [|item requests IH]; intros results total w Hwf.
  - exists [], total. simpl. unfold ret. rewrite app_nil_r. by split.
  - apply Forall_cons in Hwf as [Hitem Hrest].
    destruct (batch_step_appends item results total w Hitem) as [total1 Hstep].
    destruct (IH (results ++ [match item_outcome P item w with
                              | Ok response => response
                              | Raise _ => absent_response item
                              end]) total1 (world_after P w item) Hrest)
      as (new & total2 & Hloop & Hlen & Hnth).
    eexists (_ :: new), total2. split; [|split].
    + simpl. unfold bind. rewrite Hstep, Hloop. by rewrite <- app_assoc.
    + simpl. by rewrite Hlen.
    + intros [|i] item' Hi; simpl in *.
      * by injection Hi as <-.
      * by apply Hnth.
Qed.

End Batch.

(** C7: the batch endpoint answers a list of N items with N results, the
    i-th result belonging to the i-th item. An item whose processing raises
    gets the record with every schema field absent and cost [0.0], and the
    items after it are processed all the same, each in the world the items
    before it left. *)
Theorem extract_batch_isolates_failures (P : Platform)
    (requests : list BatchItem) (w : World) :
  Forall (λ item, dict_wf (extraction_schema item)) requests →
  ∃ w' response,
    extract_batch P requests w = (w', Ok response)
    ∧ length (results response) = length requests
    ∧ ∀ i item,
        requests !! i = Some item →
        let w_i := foldl (world_after P) (with_clock_reads (S (clock_reads w)) w)
                     (take i requests) in
        results response !! i
        = Some match item_outcome P item w_i with
               | Ok item_response => item_response
               | Raise _ => absent_response item
               end.
Proof.
  intros Hwf.
  destruct (batch_loop_results P requests [] 0%float
              (with_clock_reads (S (clock_reads w)) w) Hwf)
    as (new & total & Hloop & Hlen & Hnth).
  unfold extract_batch, bind, time_now. simpl. rewrite Hloop. simpl.
  eexists _, _. split; [reflexivity|]. simpl. by split.
Qed.

Lemma stub_requests_wf :
  Forall (λ item, dict_wf (extraction_schema item)) Stub.requests.
Proof.
  repeat apply Forall_cons_2; simpl;
    auto using invoice_schema_wf, invoice_schema_reordered_wf.
Qed.

Lemma extract_batch_isolates_failures_witness :
  ∃ w' response,
    extract_batch Stub.up Stub.requests Stub.fresh = (w', Ok response)
    ∧ length (results response) = 3
    ∧ ∀ i item,
        Stub.requests !! i = Some item →
        let w_i := foldl (world_after Stub.up)
                     (with_clock_reads (S (clock_reads Stub.fresh)) Stub.fresh)
                     (take i Stub.requests) in
        results response !! i
        = Some match item_outcome Stub.up item w_i with
               | Ok item_response => item_response
               | Raise _ => absent_response item
               end.
Proof.
  exact (extract_batch_isolates_failures Stub.up Stub.requests Stub.fresh
           stub_requests_wf).
Defined.

(** The second item names a file that is not there; the third finds the
    first one's result in the cache. *)
Example extract_batch_stub :
  (extract_batch Stub.up Stub.requests Stub.fresh).2
  = Ok {| results :=
            [ {| response_extracted_data :=
                   [("invoice_number", Some "1234"); ("total", Some "56.78")];
                 response_cost := 0.0000135%float;
                 response_processing_time := 1%float;
                 response_cache_hit := false |};
              {| response_extracted_data :=
                   [("invoice_number", None); ("total", None)];
                 response_cost := 0%float;
                 response_processing_time := 0%float;
                 response_cache_hit := false |};
              {| response_extracted_data :=
                   [("invoice_number", Some "1234"); ("total", Some "56.78")];
                 response_cost := 0.0000135%float;
                 response_processing_time := 1%float;
                 response_cache_hit := true |} ];
          total_cost := (0.0000135 + 0.0000135)%float;
          total_processing_time := 5%float |}.
Proof. vm_compute. reflexivity. Qed.

(** * Further properties of the code *)

(** ** The cache table *)

Lemma generate_key_perm (P : Platform) (pdf_content : list byte)
    (schema1 schema2 : dict string) :
  schema1 ≡ₚ schema2 →
  _generate_key P pdf_content schema1 = _generate_key P pdf_content schema2.
Proof.
  intros Hperm. unfold _generate_key, json_dumps_sort_keys.
  by rewrite (sorted_items_Permutation schema1 schema2).
Qed.

(** X1: storing under one key leaves the lookup under every other key as it
    was. *)
Theorem cache_set_other_key (P : Platform) {V : Type} (c : gmap string V)
    (pdf pdf' : list byte) (schema schema' : dict string) (result : V) :
  _generate_key P pdf' schema' ≠ _generate_key P pdf schema →
  CacheService_get P (CacheService_set P c pdf schema result) pdf' schema'
  = CacheService_get P c pdf' schema'.
Proof.
  intros Hne. unfold CacheService_get, CacheService_set.
  by rewrite lookup_insert_ne.
Qed.

Lemma cache_set_other_key_witness :
  CacheService_get Stub.up
    (CacheService_set Stub.up (∅ : gmap string nat) Stub.invoice_pdf
       Stub.invoice_schema 7)
    Stub.blank_pdf Stub.invoice_schema
  = None.
Proof.
  refine (cache_set_other_key Stub.up ∅ Stub.invoice_pdf Stub.blank_pdf
            Stub.invoice_schema Stub.invoice_schema 7 _).
  intros Heq. vm_compute in Heq. discriminate Heq.
Defined.

(** X2: storing twice under the same document and schema, the fields of the
    schema in any order, keeps the last result only: the table is the one a
    single store of the last result gives. *)
Theorem cache_set_last_writer_wins (P : Platform) {V : Type}
    (c : gmap string V) (pdf : list byte) (schema1 schema2 : dict string)
    (r1 r2 : V) :
  schema1 ≡ₚ schema2 →
  CacheService_set P (CacheService_set P c pdf schema1 r1) pdf schema2 r2
  = CacheService_set P c pdf schema2 r2
  ∧ CacheService_size
      (CacheService_set P (CacheService_set P c pdf schema1 r1) pdf schema2 r2)
    = CacheService_size (CacheService_set P c pdf schema1 r1).
Proof.
  intros Hperm. unfold CacheService_set, CacheService_size.
  rewrite (generate_key_perm P pdf schema1 schema2 Hperm).
  split; [apply insert_insert_eq|].
  rewrite map_size_insert_Some; [done|].
  rewrite lookup_insert_eq. by eexists.
Qed.

Lemma cache_set_last_writer_wins_witness :
  CacheService_get Stub.up
    (CacheService_set Stub.up
       (CacheService_set Stub.up (∅ : gmap string nat) Stub.invoice_pdf
          Stub.invoice_schema 1)
       Stub.invoice_pdf Stub.invoice_schema_reordered 2)
    Stub.invoice_pdf Stub.invoice_schema
  = Some 2.
Proof.
  rewrite (proj1 (cache_set_last_writer_wins Stub.up ∅ Stub.invoice_pdf
                    Stub.invoice_schema Stub.invoice_schema_reordered 1 2
                    (perm_swap _ _ _))).
  reflexivity.
Defined.

(** X3: [clear] forgets everything, whatever the table held: the size is 0,
    every lookup misses, and the first store after it makes the size 1. *)
Theorem cache_clear_forgets (P : Platform) {V : Type} (c : gmap string V)
    (pdf pdf' : list byte) (schema schema' : dict string) (result : V) :
  CacheService_size (CacheService_clear c) = 0
  ∧ CacheService_get P (CacheService_clear c) pdf schema = None
  ∧ CacheService_size
      (CacheService_set P (CacheService_clear c) pdf' schema' result) = 1.
Proof.
  unfold CacheService_size, CacheService_clear, CacheService_get, CacheService_set.
  split; [apply map_size_empty|]. split; [apply lookup_empty|].
  by rewrite insert_empty, map_size_singleton.
Qed.

Lemma string_app_inj_length (a b c d : string) :
  String.length a = String.length b →
  (a ++ c)%string = (b ++ d)%string → a = b ∧ c = d.
Proof.
  revert b. induction a as [|x a IH]; intros [|y b] Hlen Happ;
    cbn in Hlen, Happ; try discriminate.
  - by subst.
  - injection Hlen as Hlen. injection Happ as -> Happ.
    destruct (IH b Hlen Happ) as [-> ->]. done.
Qed.

(** X4: when all digests have the same length, as hexadecimal SHA-256
    digests do, the key [pdf_hash:schema_hash] can be read in one way only:
    equal keys have equal document digests and equal schema digests. *)
Theorem generate_key_components (P : Platform) (pdf1 pdf2 : list byte)
    (schema1 schema2 : dict string) :
  (∀ b b', String.length (sha256_hexdigest P b)
           = String.length (sha256_hexdigest P b')) →
  _generate_key P pdf1 schema1 = _generate_key P pdf2 schema2 →
  sha256_hexdigest P pdf1 = sha256_hexdigest P pdf2
  ∧ sha256_hexdigest P (String.list_byte_of_string (json_dumps_sort_keys P schema1))
    = sha256_hexdigest P (String.list_byte_of_string (json_dumps_sort_keys P schema2)).
Proof.
  intros Hlen Hkey. unfold _generate_key in Hkey.
  apply string_app_inj_length in Hkey as [Hpdf Hrest]; [|apply Hlen].
  split; [done|]. by injection Hrest.
Qed.

Lemma short_digest_length (b b' : list byte) :
  String.length (Short.digest b) = String.length (Short.digest b').
Proof. by destruct b, b'. Qed.

Lemma generate_key_components_witness :
  sha256_hexdigest Short.platform Stub.invoice_pdf
  = sha256_hexdigest Short.platform Stub.blank_pdf.
Proof.
  exact (proj1 (generate_key_components Short.platform Stub.invoice_pdf
                  Stub.blank_pdf Stub.invoice_schema Stub.invoice_schema_reordered
                  short_digest_length eq_refl)).
Defined.

(** ** The text extractor, further *)

(** X5: the extractor returns a text exactly when the document opens, has a
    first page, and that page yields a text that is not empty; in every
    other case (opening or extracting raises, no page, no text, empty text)
    it returns [None]. In particular it never returns the empty string. *)
Theorem extract_text_some_iff (P : Platform) (pdf_content : list byte)
    (text : string) :
  extract_text_from_pdf P pdf_content = Some text
  ↔ text ≠ "" ∧ first_page_text P pdf_content (Some text).
Proof.
  unfold extract_text_from_pdf, first_page_text. split.
  - destruct (pdfplumber_open P pdf_content) as [[|page pages]|] eqn:Hopen;
      simpl; try done.
    destruct (extract_text page) as [[[|c t]|]|] eqn:Hpage; simpl; try done.
    intros [= <-]. split; [done|]. by exists page, pages.
  - intros [Hne (page & pages & -> & Hpage)]. simpl. rewrite Hpage. simpl.
    by destruct text.
Qed.

(** X6: only the first page is read: two documents that open with the same
    first page give the same text, whatever their other pages are or do. *)
Theorem extract_text_first_page_only (P : Platform) (pdf1 pdf2 : list byte)
    (page : Page) (pages1 pages2 : list Page) :
  pdfplumber_open P pdf1 = Ok (page :: pages1) →
  pdfplumber_open P pdf2 = Ok (page :: pages2) →
  extract_text_from_pdf P pdf1 = extract_text_from_pdf P pdf2.
Proof.
  intros H1 H2. unfold extract_text_from_pdf. by rewrite H1, H2.
Qed.

Lemma extract_text_first_page_only_witness :
  extract_text_from_pdf Short.two_pages Stub.invoice_pdf
  = extract_text_from_pdf Short.two_pages Stub.blank_pdf.
Proof.
  exact (extract_text_first_page_only Short.two_pages Stub.invoice_pdf
           Stub.blank_pdf (mkPage (Ok (Some Stub.invoice_text)))
           [] [mkPage (Raise PDFSyntaxError)] eq_refl eq_refl).
Defined.

(** ** The LLM client, further *)

(** X7: [get_llm_service] raises exactly when no client was built before
    and either [OPENAI_API_KEY] is unset or empty, which gives [ValueError],
    or the key is there and the constructor of the OpenAI client raises,
    which gives that exception. In both cases the global stays unset, so
    that the next call starts over. *)
Theorem get_llm_service_raises_iff (P : Platform) (w w' : World) (e : exn) :
  get_llm_service P w = (w', Raise e)
  ↔ w' = w ∧ _llm_service w = None
    ∧ ((e = ValueError
        ∧ (os_getenv P "OPENAI_API_KEY" = None
           ∨ os_getenv P "OPENAI_API_KEY" = Some ""))
       ∨ (∃ c key,
            os_getenv P "OPENAI_API_KEY" = Some (String c key)
            ∧ openai_new P (String c key) = Raise e)).
Proof.
  unfold get_llm_service, LLMService_init.
  destruct (_llm_service w) as [service|] eqn:Hservice.
  { split; [done|]. by intros (_ & ? & _). }
  destruct (os_getenv P "OPENAI_API_KEY") as [[|c key]|]; simpl.
  - split; [intros [= <- <-]; eauto 6|].
    intros (-> & _ & [[-> _]|(c & key & ? & _)]); done.
  - destruct (openai_new P (String c key)) as [[]|e'] eqn:Hnew; simpl.
    + split; [done|].
      intros (_ & _ & [[_ [?|?]]|(c' & key' & [= <- <-] & Hraise)]); try done.
      congruence.
    + split.
      * intros [= <- <-]. do 2 (split; [done|]). right. eauto.
      * intros (-> & _ & [[_ [?|?]]|(c' & key' & [= <- <-] & Hraise)]);
          try done. congruence.
  - split; [intros [= <- <-]; eauto 6|].
    intros (-> & _ & [[-> _]|(c & key & ? & _)]); done.
Qed.

(** X8: once built, the client is reused: a call of [get_llm_service] that
    returned a client leaves a world in which every later call returns that
    same client and changes nothing, whatever the environment says by
    then. *)
Theorem get_llm_service_reuses (P P' : Platform) (w w1 : World)
    (service : LLMService) :
  get_llm_service P w = (w1, Ok service) →
  get_llm_service P' w1 = (w1, Ok service).
Proof.
  unfold get_llm_service.
  destruct (_llm_service w) as [s|] eqn:Hs.
  - intros [= <- <-]. by rewrite Hs.
  - destruct (LLMService_init P) as [s|]; [|done].
    by intros [= <- <-].
Qed.

Lemma get_llm_service_reuses_witness :
  get_llm_service Short.no_key
    (with_llm_service (Some (mkLLMService "sk-test" "gpt-5-mini")) Stub.fresh)
  = (with_llm_service (Some (mkLLMService "sk-test" "gpt-5-mini")) Stub.fresh,
     Ok (mkLLMService "sk-test" "gpt-5-mini")).
Proof.
  exact (get_llm_service_reuses Stub.up Short.no_key Stub.fresh _ _ eq_refl).
Defined.

Lemma read_response_object (P : Platform) (schema : dict string)
    (u : Usage) (content : string) (more : list (option string))
    (c : float) (j : dict pyval) :
  dict_wf schema →
  usage_cost (prompt_tokens u) (completion_tokens u) = Ok c →
  json_loads P content = Some (PyDict j) →
  read_response P schema {| usage := Some u; choices := Some content :: more |}
  = Ok ((λ field, (field, default PyNone (dict_get j field))) <$> dict_keys schema, c).
Proof.
  intros Hwf Hcost Hjson. unfold read_response. simpl.
  rewrite Hcost. simpl. rewrite Hjson. simpl.
  by rewrite fill_fields_object.
Qed.

(** X10: when the answer parses to a JSON object, [extract_data] returns, for
    each field of the schema and in the schema's order, the value the object
    has for it, or [None] when the object has none; whatever else the object
    holds is dropped. *)
Theorem extract_data_normalises (P : Platform) (self : LLMService)
    (text : string) (schema : dict string) (label : option string) (w : World)
    (u : Usage) (content : string) (more : list (option string))
    (c : float) (j : dict pyval) :
  dict_wf schema →
  chat_completions_create P (llm_calls w) (model self) system_content
    (_build_prompt text schema label)
  = Ok {| usage := Some u; choices := Some content :: more |} →
  usage_cost (prompt_tokens u) (completion_tokens u) = Ok c →
  json_loads P content = Some (PyDict j) →
  (LLMService_extract_data P self text schema label w).2
  = Ok ((λ field, (field, default PyNone (dict_get j field))) <$> dict_keys schema,
        c).
Proof.
  intros Hwf Hcreate Hcost Hjson. rewrite extract_data_run. simpl.
  rewrite extract_data_try_outcome, Hcreate. simpl.
  by rewrite (read_response_object P schema u content more c j).
Qed.

Lemma extract_data_normalises_witness :
  (LLMService_extract_data Short.numeric_answer
     (mkLLMService "sk-test" "gpt-5-mini") Stub.invoice_text
     [("total", "the total amount"); ("due_date", "the due date")]
     None Stub.fresh).2
  = Ok ([("total", PyStr "56.78"); ("due_date", PyNone)], 0.0000135%float).
Proof.
  refine (extract_data_normalises Short.numeric_answer
            (mkLLMService "sk-test" "gpt-5-mini") Stub.invoice_text
            [("total", "the total amount"); ("due_date", "the due date")]
            None Stub.fresh {| prompt_tokens := 100; completion_tokens := 20 |}
            Stub.invoice_json [] 0.0000135%float Short.numeric_fields
            _ eq_refl eq_refl eq_refl).
  apply (bool_decide_unpack _). vm_compute. exact I.
Defined.

(** X11: an answer that is valid JSON but not an object (a list, a string, a
    number) counts as a failure as soon as the schema has a field: every
    field is [None] and the cost is [0.0], although the usage was reported.
    With a schema without fields nothing is looked up, and the empty result
    comes with the computed cost. *)
Theorem extract_data_not_an_object (P : Platform) (self : LLMService)
    (text : string) (schema : dict string) (label : option string) (w : World)
    (u : Usage) (content : string) (more : list (option string))
    (c : float) (v : pyval) :
  dict_wf schema →
  chat_completions_create P (llm_calls w) (model self) system_content
    (_build_prompt text schema label)
  = Ok {| usage := Some u; choices := Some content :: more |} →
  usage_cost (prompt_tokens u) (completion_tokens u) = Ok c →
  json_loads P content = Some v →
  (∀ j, v ≠ PyDict j) →
  (LLMService_extract_data P self text schema label w).2
  = Ok (if decide (schema = [])
        then ([], c)
        else ((λ field, (field, PyNone)) <$> dict_keys schema, 0%float)).
Proof.
  intros Hwf Hcreate Hcost Hjson Hv. rewrite extract_data_run. simpl.
  rewrite extract_data_try_outcome, Hcreate. simpl.
  unfold read_response. simpl. rewrite Hcost. simpl. rewrite Hjson. simpl.
  destruct (decide (schema = [])) as [->|Hne]; [done|].
  destruct schema as [|[field description] schema]; [done|].
  destruct v; simpl; try (by rewrite none_for_fields_NoDup).
  by destruct (Hv d).
Qed.

Lemma extract_data_not_an_object_witness :
  (LLMService_extract_data Short.list_answer
     (mkLLMService "sk-test" "gpt-5-mini") Stub.invoice_text
     Stub.invoice_schema None Stub.fresh).2
  = Ok ([("invoice_number", PyNone); ("total", PyNone)], 0%float).
Proof.
  refine (extract_data_not_an_object Short.list_answer
            (mkLLMService "sk-test" "gpt-5-mini") Stub.invoice_text
            Stub.invoice_schema None Stub.fresh
            {| prompt_tokens := 100; completion_tokens := 20 |}
            Stub.invoice_json [] 0.0000135%float (PyList [PyStr "1234"])
            invoice_schema_wf eq_refl eq_refl eq_refl _).
  intros j Hj. discriminate Hj.
Defined.


(** ** The orchestrator, further *)

Section OrchestratorFurther.

Context (P : Platform).
Implicit Types (pdf : list byte) (schema : dict string) (label : option string)
  (w : World).

(** [extract] writes the cache at most once, and only under a key that was
    absent. *)
Lemma extract_cache_cases pdf schema label w :
  _cache (ExtractionService_extract P pdf schema label w).1 = _cache w
  ∨ (_cache w !! _generate_key P pdf schema = None
     ∧ ∃ result,
         (ExtractionService_extract P pdf schema label w).2 = Ok result
         ∧ cache_hit result = false
         ∧ llm_calls (ExtractionService_extract P pdf schema label w).1
           = S (llm_calls w)
         ∧ _cache (ExtractionService_extract P pdf schema label w).1
           = <[_generate_key P pdf schema := result]> (_cache w)).
Proof.
  destruct (CacheService_get P (_cache w) pdf schema) as [cached|] eqn:Hget.
  { left. by rewrite (extract_hit P _ _ _ _ cached). }
  destruct (extract_text_from_pdf P pdf) as [text|] eqn:Htext.
  2: { left. by rewrite extract_no_text. }
  destruct (get_llm_service P w) as [wl [service|e]] eqn:Hservice.
  2: { left. by rewrite (extract_no_client P _ _ _ _ text wl e). }
  right. split; [done|].
  rewrite (extract_llm P _ _ _ _ text wl service) by done. simpl.
  eexists. by repeat split.
Qed.

Lemma extract_cache_mono pdf schema label w (key : string) (entry : Result) :
  _cache w !! key = Some entry →
  _cache (ExtractionService_extract P pdf schema label w).1 !! key = Some entry.
Proof.
  intros Hentry.
  destruct (extract_cache_cases pdf schema label w)
    as [->|(Hmiss & result & _ & _ & _ & ->)]; [done|].
  rewrite lookup_insert_ne; [done|]. intros <-. congruence.
Qed.

End OrchestratorFurther.

(** X9: one call of [extract] invokes [client.chat.completions.create] at
    most once: the code never invokes it a second time. It invokes it only
    on a cache miss of a document that has text, and then always returns,
    with what the invocation led to (the answer, or the all-absent
    fallback) stored under the pair's key. On every other way through
    [extract] there is no invocation and the cache is not written. *)
Theorem extract_create_calls (P : Platform) (pdf_content : list byte)
    (schema : dict string) (label : option string) (w : World) :
  let run := ExtractionService_extract P pdf_content schema label w in
  (llm_calls run.1 = llm_calls w ∧ _cache run.1 = _cache w)
  ∨ (llm_calls run.1 = S (llm_calls w)
     ∧ CacheService_get P (_cache w) pdf_content schema = None
     ∧ (∃ text, extract_text_from_pdf P pdf_content = Some text)
     ∧ ∃ result,
         run.2 = Ok result
         ∧ cache_hit result = false
         ∧ CacheService_get P (_cache run.1) pdf_content schema = Some result).
Proof.
  simpl.
  destruct (CacheService_get P (_cache w) pdf_content schema) as [cached|] eqn:Hget.
  { left. by rewrite (extract_hit P _ _ _ _ cached). }
  destruct (extract_text_from_pdf P pdf_content) as [text|] eqn:Htext.
  2: { left. by rewrite extract_no_text. }
  destruct (get_llm_service P w) as [wl [service|e]] eqn:Hservice.
  2: { left. by rewrite (extract_no_client P _ _ _ _ text wl e). }
  right. rewrite (extract_llm P _ _ _ _ text wl service) by done. simpl.
  do 2 (split; [done|]). split; [by eexists|].
  eexists. do 2 (split; [done|]). apply CacheService_get_set.
Qed.

(** X12: a cache hit is read-only and needs nothing but the cache: whatever
    the document, the client and the environment are by now, [extract]
    returns the cached data and cost with [cache_hit = true], makes no
    remote call, builds no client and leaves the cache as it is. *)
Theorem extract_hit_read_only (P : Platform) (pdf_content : list byte)
    (schema : dict string) (label : option string) (w : World)
    (cached : Result) :
  CacheService_get P (_cache w) pdf_content schema = Some cached →
  ∃ w' r,
    ExtractionService_extract P pdf_content schema label w = (w', Ok r)
    ∧ cache_hit r = true
    ∧ extracted_data r = extracted_data cached
    ∧ cost r = cost cached
    ∧ _cache w' = _cache w
    ∧ _llm_service w' = _llm_service w
    ∧ llm_calls w' = llm_calls w.
Proof.
  intros Hget. eexists _, _. split; [by apply extract_hit|]. done.
Qed.

Lemma extract_hit_read_only_witness :
  ∃ w' r,
    ExtractionService_extract Short.no_key Stub.invoice_pdf
      Stub.invoice_schema_reordered None
      (ExtractionService_extract Stub.up Stub.invoice_pdf Stub.invoice_schema
         (Some "invoice") Stub.fresh).1
    = (w', Ok r)
    ∧ cache_hit r = true
    ∧ extracted_data r = Stub.invoice_fields
    ∧ cost r = 0.0000135%float
    ∧ llm_calls w' = 1.
Proof.
  destruct (extract_hit_read_only Short.no_key Stub.invoice_pdf
              Stub.invoice_schema_reordered None
              (ExtractionService_extract Stub.up Stub.invoice_pdf
                 Stub.invoice_schema (Some "invoice") Stub.fresh).1
              {| extracted_data := Stub.invoice_fields;
                 cost := 0.0000135%float;
                 processing_time := 1%float;
                 cache_hit := false |} eq_refl)
    as (w' & r & Hrun & Hhit & Hdata & Hcost & _ & _ & Hcalls).
  exists w', r. repeat split; assumption.
Defined.



(** X14: [extract] never removes and never overwrites a cache entry: every
    entry that was in the cache before the call is there after it,
    unchanged, and the cache has grown by one entry at most. *)
Theorem extract_never_overwrites (P : Platform) (pdf_content : list byte)
    (schema : dict string) (label : option string) (w : World) :
  let w' := (ExtractionService_extract P pdf_content schema label w).1 in
  (∀ key entry, _cache w !! key = Some entry → _cache w' !! key = Some entry)
  ∧ (CacheService_size (_cache w') = CacheService_size (_cache w)
     ∨ CacheService_size (_cache w') = S (CacheService_size (_cache w))).
Proof.
  simpl. split.
  - intros key entry. apply extract_cache_mono.
  - unfold CacheService_size.
    destruct (extract_cache_cases P pdf_content schema label w)
      as [->|(Hmiss & result & _ & _ & _ & ->)]; [by left|].
    right. by apply map_size_insert_None.
Qed.

Lemma extract_never_overwrites_witness :
  let w1 := (ExtractionService_extract Stub.up Stub.invoice_pdf
               Stub.invoice_schema (Some "invoice") Stub.fresh).1 in
  let w2 := (ExtractionService_extract Stub.up Stub.invoice_pdf
               [("total", "the total amount")] None w1).1 in
  ∃ entry,
    _cache w1 !! _generate_key Stub.up Stub.invoice_pdf Stub.invoice_schema
    = Some entry
    ∧ _cache w2 !! _generate_key Stub.up Stub.invoice_pdf Stub.invoice_schema
      = Some entry.
Proof.
  simpl. eexists. split; [reflexivity|].
  apply (extract_never_overwrites Stub.up Stub.invoice_pdf
           [("total", "the total amount")] None).
  reflexivity.
Defined.

(** X15: the label and the order of the schema's fields are not part of the
    cache key: after a call that went to the LLM, a call for the same
    document with the same fields in any order and with any label is a
    cache hit, and replays the data and the cost of the first call, in the
    field order of the first call. *)
Theorem extract_hit_ignores_label_and_order (P : Platform)
    (pdf_content : list byte) (schema schema' : dict string)
    (label label' : option string) (w wl : World) (text : string)
    (service : LLMService) :
  CacheService_get P (_cache w) pdf_content schema = None →
  extract_text_from_pdf P pdf_content = Some text →
  get_llm_service P w = (wl, Ok service) →
  schema ≡ₚ schema' →
  ∃ w1 r1 w2 r2,
    ExtractionService_extract P pdf_content schema label w = (w1, Ok r1)
    ∧ ExtractionService_extract P pdf_content schema' label' w1 = (w2, Ok r2)
    ∧ cache_hit r2 = true
    ∧ extracted_data r2 = extracted_data r1
    ∧ cost r2 = cost r1
    ∧ llm_calls w2 = llm_calls w1.
Proof.
  intros Hmiss Htext Hservice Hperm.
  pose proof (extract_llm P pdf_content schema label w text wl service
                Hmiss Htext Hservice) as H1.
  simpl in H1.
  eexists _, _, _, _. split; [exact H1|]. split.
  { apply extract_hit. simpl. unfold CacheService_get.
    rewrite <- (generate_key_perm P pdf_content schema schema' Hperm).
    apply CacheService_get_set. }
  done.
Qed.

Lemma extract_hit_ignores_label_and_order_witness :
  ∃ w1 r1 w2 r2,
    ExtractionService_extract Stub.up Stub.invoice_pdf Stub.invoice_schema
      (Some "invoice") Stub.fresh = (w1, Ok r1)
    ∧ ExtractionService_extract Stub.up Stub.invoice_pdf
        Stub.invoice_schema_reordered (Some "receipt") w1 = (w2, Ok r2)
    ∧ cache_hit r2 = true
    ∧ extracted_data r2 = extracted_data r1
    ∧ cost r2 = cost r1
    ∧ llm_calls w2 = llm_calls w1.
Proof.
  exact (extract_hit_ignores_label_and_order Stub.up Stub.invoice_pdf
           Stub.invoice_schema Stub.invoice_schema_reordered
           (Some "invoice") (Some "receipt") Stub.fresh _ Stub.invoice_text _
           eq_refl eq_refl eq_refl (perm_swap _ _ _)).
Defined.

(** ** The batch endpoint, further *)

Section BatchFurther.

Context (P : Platform).
Implicit Types (item : BatchItem) (w : World) (results : list ExtractionResponse).

(** Up to the call of the extraction service the [try] block changes
    nothing. *)
Lemma read_and_extract_cases item w :
  (∃ e, read_and_extract P item w = (w, Raise e))
  ∨ (∃ path pdf_content,
       resolve_pdf_path P item = Ok path
       ∧ read_binary P path = Ok pdf_content
       ∧ read_and_extract P item w
         = ExtractionService_extract P pdf_content (extraction_schema item)
             (Some (label item)) w).
Proof.
  unfold read_and_extract, bind, lift.
  destruct (resolve_pdf_path P item) as [path|e]; [|left; by eexists].
  destruct (read_binary P path) as [pdf_content|e] eqn:Hread;
    [|left; by eexists].
  right. by exists path, pdf_content.
Qed.

Lemma world_after_cache_mono item w (key : string) (entry : Result) :
  _cache w !! key = Some entry →
  _cache (world_after P w item) !! key = Some entry.
Proof.
  intros Hentry. unfold world_after.
  destruct (read_and_extract_cases item w)
    as [[e ->]|(path & pdf_content & _ & _ & ->)]; [done|].
  by apply extract_cache_mono.
Qed.

(** One iteration, with the sum it leaves in [total_cost]. *)
Lemma batch_step_run item results (total : float) w :
  dict_wf (extraction_schema item) →
  batch_step P (results, total) item w
  = (world_after P w item,
     Ok (results ++ [match item_outcome P item w with
                     | Ok response => response
                     | Raise _ => absent_response item
                     end],
         match (read_and_extract P item w).2 with
         | Ok result => (total + cost result)%float
         | Raise _ => total
         end)).
Proof.
  intros Hwf. unfold batch_step, item_outcome, world_after.
  destruct (read_and_extract P item w) as [w' [result|e]]; simpl.
  - destruct (ExtractionResponse_new P _ _ _ _) as [response|e]; simpl; [done|].
    by rewrite append_failed_absent.
  - by rewrite append_failed_absent.
Qed.

Lemma batch_loop_run (requests : list BatchItem) results (total : float) w :
  Forall (λ item, dict_wf (extraction_schema item)) requests →
  ∃ new,
    batch_loop P requests (results, total) w
    = (foldl (world_after P) w requests,
       Ok (results ++ new, batch_total P requests w total)).
Proof.
  revert results total w.
  induction requests as [|item requests IH]; intros results total w Hwf.
  - exists []. simpl. unfold ret. by rewrite app_nil_r.
  - apply Forall_cons in Hwf as [Hitem Hrest]. simpl. unfold bind.
    rewrite batch_step_run by done.
    destruct (IH (results ++ [match item_outcome P item w with
                              | Ok response => response
                              | Raise _ => absent_response item
                              end])
                 (match (read_and_extract P item w).2 with
                  | Ok result => (total + cost result)%float
                  | Raise _ => total
                  end) (world_after P w item) Hrest) as [new ->].
    eexists (_ :: new). by rewrite <- app_assoc.
Qed.

(** The batch endpoint as a whole. *)
Lemma extract_batch_run (requests : list BatchItem) w :
  Forall (λ item, dict_wf (extraction_schema item)) requests →
  let w0 := with_clock_reads (S (clock_reads w)) w in
  let w1 := foldl (world_after P) w0 requests in
  ∃ new,
    extract_batch P requests w
    = (with_clock_reads (S (clock_reads w1)) w1,
       Ok {| results := new;
             total_cost := batch_total P requests w0 0%float;
             total_processing_time :=
               (time_time P (clock_reads w1) - time_time P (clock_reads w))%float |}).
Proof.
  intros Hwf w0 w1.
  destruct (batch_loop_run requests [] 0%float w0 Hwf) as [new Hloop].
  exists new. unfold extract_batch, bind, time_now. simpl.
  fold w0. rewrite Hloop. simpl. by fold w1.
Qed.

Lemma foldl_world_after_cache_mono (requests : list BatchItem) w
    (key : string) (entry : Result) :
  _cache w !! key = Some entry →
  _cache (foldl (world_after P) w requests) !! key = Some entry.
Proof.
  revert w. induction requests as [|item requests IH]; intros w Hentry; simpl.
  - done.
  - by apply IH, world_after_cache_mono.
Qed.

End BatchFurther.

(** ** A platform whose keys never collide *)

Lemma string_app_cons (x : ascii) (a b : string) :
  (String x a ++ b)%string = String x (a ++ b)%string.
Proof. reflexivity. Qed.

Lemma string_app_nil (b : string) : (EmptyString ++ b)%string = b.
Proof. reflexivity. Qed.

Ltac string_norm := rewrite ?string_app_cons, ?string_app_nil.

Lemma string_app_assoc (a b c : string) :
  ((a ++ b) ++ c)%string = (a ++ b ++ c)%string.
Proof. induction a as [|x a IH]; [done|]. string_norm. by rewrite IH. Qed.









(** ** Entries stay *)

(** X17: the batch endpoint never removes and never overwrites a cache
    entry: what was cached before the batch is cached after it,
    unchanged. *)
Theorem extract_batch_never_overwrites (P : Platform)
    (requests : list BatchItem) (w : World) (key : string) (entry : Result) :
  Forall (λ item, dict_wf (extraction_schema item)) requests →
  _cache w !! key = Some entry →
  _cache (extract_batch P requests w).1 !! key = Some entry.
Proof.
  intros Hwf Hentry. destruct (extract_batch_run P requests w Hwf) as [new ->].
  simpl. by apply foldl_world_after_cache_mono.
Qed.

Lemma extract_batch_never_overwrites_witness :
  let w1 := (ExtractionService_extract Stub.down Stub.invoice_pdf
               Stub.invoice_schema None Stub.fresh).1 in
  _cache (extract_batch Stub.up Stub.requests w1).1
    !! _generate_key Stub.up Stub.invoice_pdf Stub.invoice_schema
  = Some {| extracted_data := [("invoice_number", PyNone); ("total", PyNone)];
            cost := 0%float;
            processing_time := 1%float;
            cache_hit := false |}.
Proof.
  intros w1.
  exact (extract_batch_never_overwrites Stub.up Stub.requests w1
           (_generate_key Stub.up Stub.invoice_pdf Stub.invoice_schema)
           {| extracted_data := [("invoice_number", PyNone); ("total", PyNone)];
              cost := 0%float;
              processing_time := 1%float;
              cache_hit := false |}
           stub_requests_wf eq_refl).
Defined.

(** ** Files that are not there *)

(** X18: the path the batch endpoint reads is one that exists: the path as
    given if that exists, else the path under [files]; when neither exists
    the item fails with [FileNotFoundError], an absolute path included
    (joining it to [files] gives the same path again). *)
Theorem resolve_pdf_path_exists (P : Platform) (item : BatchItem) :
  (os_path_exists P (pdf_path item) = true →
   resolve_pdf_path P item = Ok (pdf_path item))
  ∧ (∀ path, resolve_pdf_path P item = Ok path →
       os_path_exists P path = true
       ∧ (path = pdf_path item ∨ path = os_path_join "files" (pdf_path item)))
  ∧ (∀ e, resolve_pdf_path P item = Raise e →
       e = FileNotFoundError
       ∧ os_path_exists P (pdf_path item) = false
       ∧ os_path_exists P (os_path_join "files" (pdf_path item)) = false)
  ∧ (∀ rest, pdf_path item = String "/" rest →
       os_path_exists P (pdf_path item) = false →
       resolve_pdf_path P item = Raise FileNotFoundError).
Proof.
  unfold resolve_pdf_path.
  destruct (os_path_exists P (pdf_path item)) eqn:Hgiven; simpl.
  { split; [done|]. split; [|split]; [|done..].
    intros p [= <-]. split; [done|by left]. }
  destruct (os_path_exists P (os_path_join "files" (pdf_path item)))
    eqn:Hfiles; simpl.
  - split; [done|]. split; [|split]; [|done|].
    + intros p [= <-]. split; [done|by right].
    + intros rest Hrest _. unfold os_path_join in Hfiles.
      rewrite Hrest in Hfiles. rewrite Hrest in Hgiven. congruence.
  - split; [done|]. split; [done|]. split; [|done].
    by intros e [= <-].
Qed.

Lemma resolve_pdf_path_exists_witness :
  resolve_pdf_path Stub.up (mkBatchItem "invoice" Stub.invoice_schema "invoice.pdf")
  = Ok "files/invoice.pdf"
  ∧ resolve_pdf_path Stub.up
      (mkBatchItem "invoice" Stub.invoice_schema "/tmp/gone.pdf")
    = Raise FileNotFoundError.
Proof.
  split; [reflexivity|].
  exact (proj2 (proj2 (proj2
           (resolve_pdf_path_exists Stub.up
              (mkBatchItem "invoice" Stub.invoice_schema "/tmp/gone.pdf"))))
           "tmp/gone.pdf" eq_refl eq_refl).
Defined.

Lemma read_and_extract_missing (P : Platform) (item : BatchItem) (w : World) :
  os_path_exists P (pdf_path item) = false →
  os_path_exists P (os_path_join "files" (pdf_path item)) = false →
  read_and_extract P item w = (w, Raise FileNotFoundError).
Proof.
  intros Hgiven Hfiles. unfold read_and_extract, bind, lift, resolve_pdf_path.
  by rewrite Hgiven, Hfiles.
Qed.

Lemma batch_loop_all_missing (P : Platform) (requests : list BatchItem)
    (results : list ExtractionResponse) (total : float) (w : World) :
  Forall (λ item, dict_wf (extraction_schema item)) requests →
  Forall (λ item,
            os_path_exists P (pdf_path item) = false
            ∧ os_path_exists P (os_path_join "files" (pdf_path item)) = false)
    requests →
  batch_loop P requests (results, total) w
  = (w, Ok (results ++ (absent_response <$> requests), total)).
Proof.
  revert results. induction requests as [|item requests IH];
    intros results Hwf Hmissing.
  - simpl. unfold ret. by rewrite app_nil_r.
  - apply Forall_cons in Hwf as [Hitem Hwf].
    apply Forall_cons in Hmissing as [[Hgiven Hfiles] Hmissing].
    simpl. unfold bind. rewrite batch_step_run by done.
    unfold world_after, item_outcome.
    rewrite (read_and_extract_missing P item w Hgiven Hfiles). simpl.
    rewrite IH by done. by rewrite <- app_assoc.
Qed.

(** X19: when none of the files of a batch exists, every result is the
    all-absent record of its item, the total cost is [0.0], no remote call
    is made and the cache is left as it was. *)
Theorem extract_batch_all_missing (P : Platform) (requests : list BatchItem)
    (w : World) :
  Forall (λ item, dict_wf (extraction_schema item)) requests →
  Forall (λ item,
            os_path_exists P (pdf_path item) = false
            ∧ os_path_exists P (os_path_join "files" (pdf_path item)) = false)
    requests →
  ∃ w' response,
    extract_batch P requests w = (w', Ok response)
    ∧ results response = absent_response <$> requests
    ∧ total_cost response = 0%float
    ∧ _cache w' = _cache w
    ∧ _llm_service w' = _llm_service w
    ∧ llm_calls w' = llm_calls w.
Proof.
  intros Hwf Hmissing. unfold extract_batch, bind, time_now. simpl.
  rewrite batch_loop_all_missing by done. simpl.
  eexists _, _. split; [reflexivity|]. done.
Qed.

Lemma short_missing_requests_wf :
  Forall (λ item, dict_wf (extraction_schema item)) Short.missing_requests.
Proof.
  repeat apply Forall_cons_2; simpl;
    auto using invoice_schema_wf, invoice_schema_reordered_wf.
Qed.

Lemma extract_batch_all_missing_witness :
  ∃ w' response,
    extract_batch Stub.up Short.missing_requests Stub.fresh = (w', Ok response)
    ∧ results response = absent_response <$> Short.missing_requests
    ∧ total_cost response = 0%float
    ∧ _cache w' = ∅
    ∧ _llm_service w' = None
    ∧ llm_calls w' = 0.
Proof.
  refine (extract_batch_all_missing Stub.up Short.missing_requests Stub.fresh
            short_missing_requests_wf _).
  repeat apply Forall_cons_2; try apply Forall_nil_2; split; reflexivity.
Defined.

(** ** Costs and validation in the batch endpoint *)

(** X20: the [total_cost] of a batch is the running sum, from [0.0] and in
    the order of the items, of the cost of every item whose extraction
    returned, cache hits with their replayed cost included; whether the
    item's response then passed validation plays no part. *)
Theorem extract_batch_total_cost (P : Platform) (requests : list BatchItem)
    (w : World) :
  Forall (λ item, dict_wf (extraction_schema item)) requests →
  ∃ w' response,
    extract_batch P requests w = (w', Ok response)
    ∧ total_cost response
      = batch_total P requests (with_clock_reads (S (clock_reads w)) w) 0%float.
Proof.
  intros Hwf. destruct (extract_batch_run P requests w Hwf) as [new Hrun].
  simpl in Hrun. by eexists _, _.
Qed.

Lemma extract_batch_total_cost_witness :
  ∃ w' response,
    extract_batch Stub.up Stub.requests Stub.fresh = (w', Ok response)
    ∧ total_cost response = (0 + 0.0000135 + 0.0000135)%float.
Proof.
  exact (extract_batch_total_cost Stub.up Stub.requests Stub.fresh
           stub_requests_wf).
Defined.

Lemma validate_extracted_data_Forall2 (P : Platform) (data : dict pyval)
    (data' : dict (option string)) :
  validate_extracted_data P data = Ok data' →
  Forall2 (λ kv kv', kv'.1 = kv.1 ∧ validate_optional_str P kv.2 = Ok kv'.2)
    data data'.
Proof.
  revert data'. induction data as [|[field value] data IH]; intros data'.
  - intros [= <-]. constructor.
  - cbn [validate_extracted_data].
    destruct (validate_optional_str P value) as [value'|] eqn:Hvalue;
      cbn [obind]; [|done].
    destruct (validate_extracted_data P data) as [rest|]; cbn [obind]; [|done].
    intros [= <-]. constructor; [done|]. by apply IH.
Qed.

Lemma validate_extracted_data_rejects (P : Platform) (data : dict pyval)
    (field : string) (value : pyval) :
  (field, value) ∈ data →
  validate_optional_str P value = Raise ValidationError →
  validate_extracted_data P data = Raise ValidationError.
Proof.
  intros Hin Hvalue. induction data as [|[field' value'] data IH].
  - by apply elem_of_nil in Hin.
  - cbn [validate_extracted_data].
    apply elem_of_cons in Hin as [[= <- <-]|Hin].
    + by rewrite Hvalue.
    + destruct (validate_optional_str P value') as [v|e] eqn:Hv; cbn [obind].
      * by rewrite (IH Hin).
      * unfold validate_optional_str in Hv.
        destruct value'; try done;
          by destruct (pydantic_coerce_str P _); simplify_eq.
Qed.

(** X21: building the response model keeps the fields and their order,
    keeps [None] as [None] and a string as it is, and fails as a whole with
    [ValidationError] as soon as one value is neither [None] nor a string
    nor something pydantic converts to a string. *)
Theorem extraction_response_validation (P : Platform) (data : dict pyval)
    (c t : float) (hit : bool) :
  (∀ response,
     ExtractionResponse_new P data c t hit = Ok response →
     dict_keys (response_extracted_data response) = dict_keys data
     ∧ response_cost response = c
     ∧ response_processing_time response = t
     ∧ response_cache_hit response = hit
     ∧ ∀ i field value,
         data !! i = Some (field, value) →
         response_extracted_data response !! i
         = Some (field, match value with
                        | PyNone => None
                        | PyStr s => Some s
                        | other => pydantic_coerce_str P other
                        end))
  ∧ (∀ field value,
       (field, value) ∈ data →
       value ≠ PyNone → (∀ s, value ≠ PyStr s) →
       pydantic_coerce_str P value = None →
       ExtractionResponse_new P data c t hit = Raise ValidationError).
Proof.
  unfold ExtractionResponse_new. split.
  - intros response.
    destruct (validate_extracted_data P data) as [data'|] eqn:Hvalid;
      cbn [obind]; [|done].
    intros [= <-].
    cbn [response_extracted_data response_cost response_processing_time
         response_cache_hit].
    apply validate_extracted_data_Forall2 in Hvalid.
    split; [|do 3 (split; [done|])].
    + unfold dict_keys. induction Hvalid as [|kv kv' d d' [Hk _] _ IH]; [done|].
      rewrite !fmap_cons. by rewrite Hk, IH.
    + intros i field value Hi.
      destruct (Forall2_lookup_l _ _ _ _ _ Hvalid Hi)
        as ([field' value'] & Hi' & Hk & Hv).
      trans (Some (field', value')); [exact Hi'|].
      cbn in Hk, Hv. subst field'. f_equal. f_equal.
      unfold validate_optional_str in Hv.
      destruct value; try (by injection Hv);
        by destruct (pydantic_coerce_str P _); simplify_eq.
  - intros field value Hin Hnone Hstr Hcoerce.
    rewrite (validate_extracted_data_rejects P data field value Hin); [done|].
    unfold validate_optional_str.
    destruct value; try done; try (by rewrite Hcoerce).
    by destruct (Hstr s).
Qed.

Lemma extraction_response_validation_witness :
  ExtractionResponse_new Stub.up Short.numeric_fields 0%float 0%float false
  = Raise ValidationError.
Proof.
  refine (proj2 (extraction_response_validation Stub.up Short.numeric_fields
                   0%float 0%float false)
            "invoice_number" (PyInt 1234) _ _ _ eq_refl).
  - unfold Short.numeric_fields. constructor.
  - discriminate.
  - intros s. discriminate.
Defined.

(** X22: when the extraction of a batch item returned but its response does
    not pass validation, the item is reported with the all-absent record
    (cost [0.0]), while its cost has already been added to [total_cost] and
    whatever the extraction did to the cache stays done. *)
Theorem batch_step_rejected_response (P : Platform) (item : BatchItem)
    (results : list ExtractionResponse) (total : float) (w w' : World)
    (result : Result) (e : exn) :
  dict_wf (extraction_schema item) →
  read_and_extract P item w = (w', Ok result) →
  ExtractionResponse_new P (extracted_data result) (cost result)
    (processing_time result) (cache_hit result) = Raise e →
  batch_step P (results, total) item w
  = (w', Ok (results ++ [absent_response item], (total + cost result)%float)).
Proof.
  intros Hwf Hrun Hnew. unfold batch_step. rewrite Hrun, Hnew.
  by rewrite append_failed_absent.
Qed.

Lemma batch_step_rejected_response_witness :
  ∃ w',
    batch_step Short.numeric_answer ([], 0%float)
      (mkBatchItem "invoice" Stub.invoice_schema "invoice.pdf") Stub.fresh
    = (w', Ok ([ {| response_extracted_data :=
                      [("invoice_number", None); ("total", None)];
                    response_cost := 0%float;
                    response_processing_time := 0%float;
                    response_cache_hit := false |} ],
               (0 + 0.0000135)%float))
    ∧ CacheService_size (_cache w') = 1.
Proof.
  eexists. split.
  - exact (batch_step_rejected_response Short.numeric_answer
             (mkBatchItem "invoice" Stub.invoice_schema "invoice.pdf")
             [] 0%float Stub.fresh _ _ ValidationError
             invoice_schema_wf eq_refl eq_refl).
  - reflexivity.
Defined.

(** ** The single-document endpoint *)

(** X23: the endpoint never answers 400. A schema that is not valid JSON
    raises [HTTPException(400)] inside the outer [try], whose
    [except Exception] replaces it: the client gets 500, and neither the
    upload is read nor the service called. Every other failure is a 500 as
    well. *)
Theorem extract_endpoint_never_400 (P : Platform)
    (extract_untyped : list byte → pyval → option string → M Result)
    (label extraction_schema : string) (pdf : outcome (list byte)) (w : World) :
  (json_loads P extraction_schema = None →
   extract_endpoint P extract_untyped label extraction_schema pdf w
   = (w, HTTPError 500))
  ∧ (∀ status_code,
       (extract_endpoint P extract_untyped label extraction_schema pdf w).2
       = HTTPError status_code →
       status_code = 500%Z).
Proof.
  unfold extract_endpoint. split.
  - intros Hjson. unfold extract_endpoint_try, parse_extraction_schema.
    by rewrite Hjson.
  - intros status_code.
    destruct (extract_endpoint_try P extract_untyped label extraction_schema pdf w)
      as [w' [[e|code]|response]]; simpl; by intros [= <-].
Qed.

Lemma extract_endpoint_never_400_witness :
  extract_endpoint Stub.up (λ _ _ _, raise TypeError) "invoice" "{not json"
    (Ok Stub.invoice_pdf) Stub.fresh
  = (Stub.fresh, HTTPError 500).
Proof.
  exact (proj1 (extract_endpoint_never_400 Stub.up (λ _ _ _, raise TypeError)
                  "invoice" "{not json" (Ok Stub.invoice_pdf) Stub.fresh)
           eq_refl).
Defined.

(** X24: two identical requests to the endpoint, for a schema that is a JSON
    object of strings, a pair not cached yet, a document with text and a
    client at hand: if the first is answered, so is the second, from the
    cache, with the same data and the same cost. *)
Theorem extract_endpoint_twice (P : Platform)
    (extract_untyped : list byte → pyval → option string → M Result)
    (label extraction_schema : string) (pdf_content : list byte)
    (schema_dict : pyval) (schema : dict string) (w wl w1 : World)
    (text : string) (service : LLMService) (r1 : ExtractionResponse) :
  json_loads P extraction_schema = Some schema_dict →
  as_schema schema_dict = Some schema →
  CacheService_get P (_cache w) pdf_content schema = None →
  extract_text_from_pdf P pdf_content = Some text →
  get_llm_service P w = (wl, Ok service) →
  extract_endpoint P extract_untyped label extraction_schema (Ok pdf_content) w
  = (w1, Responds r1) →
  ∃ w2 r2,
    extract_endpoint P extract_untyped label extraction_schema (Ok pdf_content) w1
    = (w2, Responds r2)
    ∧ response_cache_hit r1 = false
    ∧ response_cache_hit r2 = true
    ∧ response_extracted_data r2 = response_extracted_data r1
    ∧ response_cost r2 = response_cost r1
    ∧ llm_calls w2 = llm_calls w1.
Proof.
  intros Hjson Hschema Hmiss Htext Hservice.
  unfold extract_endpoint, extract_endpoint_try, parse_extraction_schema.
  rewrite Hjson, Hschema.
  rewrite (extract_llm P pdf_content schema (Some label) w text wl service)
    by done.
  cbn [extracted_data cost processing_time cache_hit].
  unfold ExtractionResponse_new.
  destruct (validate_extracted_data P _) as [data'|] eqn:Hvalid;
    cbn [obind]; [|done].
  intros [= <- <-].
  erewrite (extract_hit P pdf_content schema (Some label));
    [|cbn [_cache]; apply CacheService_get_set].
  cbn [extracted_data cost processing_time cache_hit].
  rewrite Hvalid. cbn [obind]. eexists _, _. split; [reflexivity|]. done.
Qed.

Lemma extract_endpoint_twice_witness :
  ∃ w2 r2,
    extract_endpoint Stub.up (λ _ _ _, raise TypeError) "invoice"
      Stub.invoice_json (Ok Stub.invoice_pdf)
      (extract_endpoint Stub.up (λ _ _ _, raise TypeError) "invoice"
         Stub.invoice_json (Ok Stub.invoice_pdf) Stub.fresh).1
    = (w2, Responds r2)
    ∧ response_cache_hit r2 = true
    ∧ response_cost r2 = 0.0000135%float
    ∧ llm_calls w2 = 1.
Proof.
  destruct (extract_endpoint_twice Stub.up (λ _ _ _, raise TypeError)
              "invoice" Stub.invoice_json Stub.invoice_pdf
              (PyDict Stub.invoice_fields)
              [("invoice_number", "1234"); ("total", "56.78")]
              Stub.fresh _ _ Stub.invoice_text _ _
              eq_refl eq_refl eq_refl eq_refl eq_refl eq_refl)
    as (w2 & r2 & Hrun & _ & Hhit & _ & Hcost & Hcalls).
  exists w2, r2. repeat split; assumption.
Defined.

(** ** The prompt *)

Lemma string_app_nil_r (a : string) : (a ++ "")%string = a.
Proof. induction a as [|x a IH]; [done|]. string_norm. by rewrite IH. Qed.

Lemma concat_mentions (sep x : string) (l : list string) :
  x ∈ l → ∃ before after, String.concat sep l = (before ++ x ++ after)%string.
Proof.
  induction l as [|y l IH]; intros Hin; [by apply elem_of_nil in Hin|].
  apply elem_of_cons in Hin as [->|Hin].
  - destruct l as [|z l].
    + exists ""%string, ""%string. cbn [String.concat].
      by rewrite string_app_nil, string_app_nil_r.
    + by exists ""%string, (sep ++ String.concat sep (z :: l))%string.
  - destruct (IH Hin) as (before & after & Hconcat).
    destruct l as [|z l]; [by apply elem_of_nil in Hin|].
    exists (y ++ sep ++ before)%string, after.
    change (String.concat sep (y :: z :: l))
      with (y ++ sep ++ String.concat sep (z :: l))%string.
    by rewrite Hconcat, !string_app_assoc.
Qed.

(** X25: the prompt names every field of the schema, in double quotes and
    followed by its description; it ends with the text, unabridged, and
    nothing before the text depends on it; and an empty label adds no more
    to the prompt than no label at all. *)
Theorem build_prompt_contents (text : string) (schema : dict string)
    (label : option string) :
  (∀ field description,
     (field, description) ∈ schema →
     ∃ before after,
       _build_prompt text schema label
       = (before ++ (dquote ++ field ++ dquote ++ ": " ++ description)
            ++ after)%string)
  ∧ (∃ before, ∀ text', _build_prompt text' schema label = (before ++ text')%string)
  ∧ _build_prompt text schema (Some ""%string) = _build_prompt text schema None.
Proof.
  split; [|split].
  - intros field description Hin.
    destruct (concat_mentions nl
                (dquote ++ field ++ dquote ++ ": " ++ description)%string
                ((λ kv, dquote ++ kv.1 ++ dquote ++ ": " ++ kv.2)%string <$> schema))
      as (before & after & Hconcat).
    { apply (list_elem_of_fmap_2
               (λ kv, dquote ++ kv.1 ++ dquote ++ ": " ++ kv.2)%string
               schema (field, description) Hin). }
    unfold _build_prompt. rewrite Hconcat.
    exists ("Extract the following fields from this text. Return JSON only." ++
            (if str_truthy label
             then nl ++ "Document type (label): " ++ default "" label ++ nl
             else "") ++ nl ++ nl ++ "Fields to extract:" ++ nl ++ before)%string,
           (after ++ nl ++ nl ++ "Text:" ++ nl ++ text)%string.
    by rewrite !string_app_assoc.
  - unfold _build_prompt.
    exists ("Extract the following fields from this text. Return JSON only." ++
            (if str_truthy label
             then nl ++ "Document type (label): " ++ default "" label ++ nl
             else "") ++ nl ++ nl ++ "Fields to extract:" ++ nl ++
            String.concat nl
              ((λ kv, dquote ++ kv.1 ++ dquote ++ ": " ++ kv.2) <$> schema) ++
            nl ++ nl ++ "Text:" ++ nl)%string.
    intros text'. by rewrite !string_app_assoc.
  - reflexivity.
Qed.

Lemma build_prompt_contents_witness :
  ∃ before after,
    _build_prompt Stub.invoice_text Stub.invoice_schema (Some "invoice")
    = (before ++ (dquote ++ "total" ++ dquote ++ ": " ++ "the total amount")
         ++ after)%string.
Proof.
  refine (proj1 (build_prompt_contents Stub.invoice_text Stub.invoice_schema
                   (Some "invoice")) "total" "the total amount" _).
  unfold Stub.invoice_schema. apply list_elem_of_further, list_elem_of_here.
Defined.

(** ** Documents without text *)

(** X26: a document without text is never served from the cache: a second
    identical call is a miss like the first and returns the same all-absent
    data; neither call makes a remote call, builds a client or writes the
    cache. *)
Theorem extract_no_text_repeats (P : Platform) (pdf_content : list byte)
    (schema : dict string) (label : option string) (w : World) :
  CacheService_get P (_cache w) pdf_content schema = None →
  extract_text_from_pdf P pdf_content = None →
  ∃ w1 r1 w2 r2,
    ExtractionService_extract P pdf_content schema label w = (w1, Ok r1)
    ∧ ExtractionService_extract P pdf_content schema label w1 = (w2, Ok r2)
    ∧ cache_hit r1 = false
    ∧ cache_hit r2 = false
    ∧ extracted_data r2 = extracted_data r1
    ∧ cost r2 = cost r1
    ∧ _cache w2 = _cache w
    ∧ _llm_service w2 = _llm_service w
    ∧ llm_calls w2 = llm_calls w.
Proof.
  intros Hmiss Htext.
  eexists _, _, _, _. split; [by apply extract_no_text|].
  split; [by apply extract_no_text|]. done.
Qed.

Lemma extract_no_text_repeats_witness :
  ∃ w1 r1 w2 r2,
    ExtractionService_extract Stub.up Stub.empty_pdf Stub.invoice_schema None
      Stub.fresh = (w1, Ok r1)
    ∧ ExtractionService_extract Stub.up Stub.empty_pdf Stub.invoice_schema None
        w1 = (w2, Ok r2)
    ∧ cache_hit r1 = false
    ∧ cache_hit r2 = false
    ∧ extracted_data r2 = extracted_data r1
    ∧ cost r2 = cost r1
    ∧ _cache w2 = ∅
    ∧ _llm_service w2 = None
    ∧ llm_calls w2 = 0.
Proof.
  exact (extract_no_text_repeats Stub.up Stub.empty_pdf Stub.invoice_schema
           None Stub.fresh eq_refl eq_refl).
Defined.

(** ** The fields of the result *)

(** *** Different schemas under one key *)

Lemma all_ascii_complete (c : ascii) : c ∈ all_ascii.
Proof.
  rewrite <- (ascii_nat_embedding c). unfold all_ascii.
  apply list_elem_of_fmap. exists (nat_of_ascii c). split; [done|].
  apply elem_of_seq. pose proof (nat_ascii_bounded c). lia.
Qed.

Lemma strings_of_length_complete (s : string) :
  s ∈ strings_of_length (String.length s).
Proof.
  induction s as [|c s IH]; cbn [String.length strings_of_length];
    [apply list_elem_of_here|].
  apply list_elem_of_bind. exists c. split; [|apply all_ascii_complete].
  apply list_elem_of_bind. exists s. split; [apply list_elem_of_here|done].
Qed.

Lemma field_of_size_length (n : nat) : String.length (field_of_size n) = n.
Proof. induction n as [|n IH]; simpl; congruence. Qed.

(** A digest of fixed length, as a hexadecimal SHA-256 digest is, cannot
    tell all schemas apart: two schemas with different fields have the same
    schema digest, hence the same cache key for every document. *)
Lemma fixed_length_digests_collide (P : Platform) (n : nat) :
  (∀ b, String.length (sha256_hexdigest P b) = n) →
  ∃ schema1 schema2,
    dict_wf schema1 ∧ dict_wf schema2
    ∧ ¬ dict_keys schema1 ≡ₚ dict_keys schema2
    ∧ ∀ pdf_content,
        _generate_key P pdf_content schema1 = _generate_key P pdf_content schema2.
Proof.
  intros Hlen.
  pose (digest_of (i : nat) :=
          sha256_hexdigest P
            (String.list_byte_of_string
               (json_dumps_sort_keys P (one_field_schema i)))).
  destruct (list_pigeonhole
              (digest_of <$> seq 0 (S (length (strings_of_length n))))
              (strings_of_length n))
    as (i1 & i2 & x & Hlt & H1 & H2).
  { intros d (i & -> & _)%list_elem_of_fmap.
    unfold digest_of. rewrite <- (Hlen (String.list_byte_of_string
                                     (json_dumps_sort_keys P (one_field_schema i)))).
    apply strings_of_length_complete. }
  { rewrite length_fmap, length_seq. lia. }
  apply list_lookup_fmap_Some_1 in H1 as (j1 & -> & Hj1).
  apply list_lookup_fmap_Some_1 in H2 as (j2 & Heq & Hj2).
  apply (proj1 (lookup_seq _ _ _ _)) in Hj1 as [-> _].
  apply (proj1 (lookup_seq _ _ _ _)) in Hj2 as [-> _].
  rewrite !Nat.add_0_l in Heq.
  exists (one_field_schema i1), (one_field_schema i2).
  split; [apply NoDup_singleton|]. split; [apply NoDup_singleton|]. split.
  - intros Hperm. apply Permutation_singleton_l in Hperm.
    injection Hperm as Hperm. apply (f_equal String.length) in Hperm.
    rewrite !field_of_size_length in Hperm. lia.
  - intros pdf_content. unfold _generate_key. fold (digest_of i1).
    fold (digest_of i2). by rewrite Heq.
Qed.

(** *** Where cached results come from *)

Lemma cache_provenance_empty (P : Platform) : cache_provenance P ∅.
Proof. intros key cached. by rewrite lookup_empty. Qed.

(** [extract] keeps the provenance of the cache, whatever the digest. *)
Lemma extract_preserves_cache_provenance (P : Platform) (pdf_content : list byte)
    (schema : dict string) (label : option string) (w : World) :
  dict_wf schema →
  cache_provenance P (_cache w) →
  cache_provenance P
    (_cache (ExtractionService_extract P pdf_content schema label w).1).
Proof.
  intros Hwf Hprov.
  destruct (CacheService_get P (_cache w) pdf_content schema) as [cached|] eqn:Hget.
  { by rewrite (extract_hit P _ _ _ _ cached). }
  destruct (extract_text_from_pdf P pdf_content) as [text|] eqn:Htext.
  2: { by rewrite extract_no_text. }
  destruct (get_llm_service P w) as [wl [service|e]] eqn:Hservice.
  2: { by rewrite (extract_no_client P _ _ _ _ text wl e). }
  rewrite (extract_llm P _ _ _ _ text wl service) by done. simpl.
  intros key cached. unfold CacheService_set.
  destruct (decide (_generate_key P pdf_content schema = key)) as [<-|Hkey].
  - rewrite lookup_insert_eq. intros [= <-]. simpl.
    exists pdf_content, schema. by rewrite llm_answer_keys.
  - rewrite lookup_insert_ne by done. apply Hprov.
Qed.

Lemma world_after_cache_provenance (P : Platform) (item : BatchItem) (w : World) :
  dict_wf (extraction_schema item) →
  cache_provenance P (_cache w) →
  cache_provenance P (_cache (world_after P w item)).
Proof.
  intros Hwf Hprov. unfold world_after.
  destruct (read_and_extract_cases P item w)
    as [[e ->]|(path & pdf_content & _ & _ & ->)]; [done|].
  by apply extract_preserves_cache_provenance.
Qed.

Lemma foldl_world_after_cache_provenance (P : Platform)
    (requests : list BatchItem) (w : World) :
  Forall (λ item, dict_wf (extraction_schema item)) requests →
  cache_provenance P (_cache w) →
  cache_provenance P (_cache (foldl (world_after P) w requests)).
Proof.
  revert w. induction requests as [|item requests IH]; intros w Hwf Hprov; simpl.
  - done.
  - apply Forall_cons in Hwf as [Hitem Hrest].
    by apply IH, world_after_cache_provenance.
Qed.




(** *** The cache as a whole *)

(** X16: every cached result was stored for a document and a schema that
    have its key, and has exactly the fields of that schema. This holds of
    the empty cache, and every call of [extract] and every run of the batch
    endpoint keeps it, for any digest. *)
Theorem cache_provenance_invariant (P : Platform) (pdf_content : list byte)
    (schema : dict string) (label : option string)
    (requests : list BatchItem) (w : World) :
  cache_provenance P (_cache w) →
  (dict_wf schema →
   cache_provenance P
     (_cache (ExtractionService_extract P pdf_content schema label w).1))
  ∧ (Forall (λ item, dict_wf (extraction_schema item)) requests →
     cache_provenance P (_cache (extract_batch P requests w).1)).
Proof.
  intros Hprov. split.
  - intros Hwf. by apply extract_preserves_cache_provenance.
  - intros Hwf. destruct (extract_batch_run P requests w Hwf) as [new ->].
    simpl. by apply foldl_world_after_cache_provenance.
Qed.

Lemma cache_provenance_invariant_witness :
  cache_provenance Short.platform
    (_cache (ExtractionService_extract Short.platform Stub.invoice_pdf
               Stub.invoice_schema (Some "invoice") Stub.fresh).1)
  ∧ cache_provenance Short.platform
      (_cache (extract_batch Short.platform Stub.requests Stub.fresh).1).
Proof.
  destruct (cache_provenance_invariant Short.platform Stub.invoice_pdf
              Stub.invoice_schema (Some "invoice") Stub.requests Stub.fresh
              (cache_provenance_empty Short.platform)) as [H1 H2].
  split; [exact (H1 invoice_schema_wf)|exact (H2 stub_requests_wf)].
Defined.
